(** * sensors-ncas-toolkit: a shallow embedding of the client library

    The Python package wraps a JSON:API backend (devices, sites, users,
    permission groups).  This development embeds the request/validation
    logic of [core.py], [constants.py], [devices.py], [sites.py] and
    [user.py] and proves the properties the specification states about
    them.

    Conventions of the embedding
    - JSON values are the inductive type [json]; numbers are integers.
    - A Python [dict] is an association list in insertion order with
      unique keys ([dict]); [list(set(a) - set(b))] is a [gset].
    - Exceptions are the constructors of [exn]; each documents the Python
      class and message it stands for.
    - Methods are computations in a state-and-exception monad over the
      receiver object and the world (requests sent, lines printed, the
      store of caller-owned dicts).  State changes made before an
      exception is raised persist, as they do in Python.
    - The HTTP transport is an oracle from the request history and the
      current request to a response. *)

From Stdlib Require Import ZArith List Ascii String Bool Lia.
From stdpp Require Import base strings list gmap.

Local Set Warnings "-register-all".
Local Open Scope string_scope.
Local Open Scope list_scope.

(** ** JSON values and Python dictionaries *)

Inductive json : Type :=
| JNull
| JBool (b : bool)
| JNum (z : Z)
| JStr (s : string)
| JArr (xs : list json)
| JObj (kvs : list (string * json)).

(** A Python dict with string keys: insertion-ordered, keys unique. *)
Definition dict : Type := list (string * json).

Fixpoint dict_get (d : dict) (key : string) : option json :=
  match d with
  | [] => None
  | (k, v) :: rest => if String.eqb k key then Some v else dict_get rest key
  end.

(** [key in d] *)
Definition dict_mem (key : string) (d : dict) : bool :=
  match dict_get d key with Some _ => true | None => false end.

(** [d[key] = v]: an existing key keeps its position, a new key is
    appended. *)
Fixpoint dict_set (d : dict) (key : string) (v : json) : dict :=
  match d with
  | [] => [(key, v)]
  | (k, w) :: rest =>
      if String.eqb k key then (k, v) :: rest else (k, w) :: dict_set rest key v
  end.

(** [d.keys()] *)
Definition dict_keys (d : dict) : list string := map fst d.

(** [x in l] for a list of strings *)
Definition str_in (x : string) (l : list string) : bool :=
  existsb (String.eqb x) l.

(** ** Exceptions *)

Inductive exn : Type :=
| RequestFailed (operation : string) (subject : option json) (status : Z)
    (* Exception(f"Failed to <operation> [{subject}]. Status code: {status}") *)
| InvalidAttribute (names : list string)
    (* ValueError("Invalid attributes given for updating ...: [...]") and
       ValueError("Invalid attribute given: ...") *)
| InvalidAttributeValue (key : string) (given : string)
    (* ValueError("Invalid boolean string value for {key}: {given}.") *)
| InvalidAttributeType (key : string)
    (* TypeError("Value for {key} must be boolean or a boolean string") *)
| NoVisibilitySet
    (* ValueError("No visibilities defined as true.") *)
| ConflictingVisibility (names : list string)
    (* ValueError("Multiple visibilities defined as true: [...].") *)
| MissingRequiredAttributes (names : gset string)
    (* ValueError("Missing required attributes: [...]"), the list built
       from a set difference *)
| IdentifierMismatch
    (* ValueError("Device id and name do not match"), same for sites *)
| MissingIdentifier
    (* ValueError("Must provide either device_id or device_name") *)
| NotFound (name : string)
    (* ValueError("Failed to find device with name: ...") *)
| PyKeyError (key : string)
    (* KeyError raised by d[key] *)
| PyTypeError
    (* TypeError raised by the interpreter: subscripting or iterating a
       value that does not support it *)
| PyIndexError
    (* IndexError raised by l[0] on an empty list *)
| PyNameError.
    (* a reference that denotes no object; it does not arise in a
       running program, where every reference a caller passes is live *)

Inductive res (A : Type) : Type :=
| Ok (a : A)
| Raise (e : exn).
Arguments Ok {A} a.
Arguments Raise {A} e.

Definition res_bind {A B} (c : res A) (k : A -> res B) : res B :=
  match c with
  | Ok a => k a
  | Raise e => Raise e
  end.

Notation "'let?' x ':=' c 'in' k" := (res_bind c (fun x => k))
  (at level 10, x name, c at level 100, k at level 200).

(** ** Python primitives on JSON values *)

(** [v[key]] with a string key. *)
Definition getitem (v : json) (key : string) : res json :=
  match v with
  | JObj kvs =>
      match dict_get kvs key with
      | Some x => Ok x
      | None => Raise (PyKeyError key)
      end
  | _ => Raise PyTypeError
  end.

(** [str.lower()].  On ASCII letters this is Python's function; bytes
    above 127 are left alone, and no such string lower-cases to one of
    the ASCII literals it is compared with below. *)
Definition lower_ascii (c : ascii) : ascii :=
  let n := nat_of_ascii c in
  if (65 <=? n)%nat && (n <=? 90)%nat then ascii_of_nat (n + 32) else c.

Fixpoint lower (s : string) : string :=
  match s with
  | EmptyString => EmptyString
  | String c rest => String (lower_ascii c) (lower rest)
  end.

(** Python's [==] on JSON values: [True == 1], lists element-wise, dicts
    irrespective of key order. *)
Fixpoint py_eqb (a b : json) {struct a} : bool :=
  match a, b with
  | JNull, JNull => true
  | JBool x, JBool y => Bool.eqb x y
  | JBool x, JNum y => Z.eqb (Z.b2z x) y
  | JNum x, JBool y => Z.eqb x (Z.b2z y)
  | JNum x, JNum y => Z.eqb x y
  | JStr x, JStr y => String.eqb x y
  | JArr xs, JArr ys =>
      (fix go (xs ys : list json) {struct xs} : bool :=
         match xs, ys with
         | [], [] => true
         | x :: xs', y :: ys' => py_eqb x y && go xs' ys'
         | _, _ => false
         end) xs ys
  | JObj xs, JObj ys =>
      (length xs =? length ys)%nat &&
      (fix go (xs : list (string * json)) {struct xs} : bool :=
         match xs with
         | [] => true
         | (k, v) :: xs' =>
             match dict_get ys k with
             | Some w => py_eqb v w && go xs'
             | None => false
             end
         end) xs
  | _, _ => false
  end.

(** Iteration [for x in v]: a list yields its elements, a dict its keys,
    a string its characters; anything else is not iterable. *)
Definition py_iter (v : json) : res (list json) :=
  match v with
  | JArr xs => Ok xs
  | JObj kvs => Ok (map (fun kv => JStr (fst kv)) kvs)
  | JStr s =>
      Ok (map (fun c => JStr (String c EmptyString)) (list_ascii_of_string s))
  | _ => Raise PyTypeError
  end.

Fixpoint is_prefix (p s : string) : bool :=
  match p, s with
  | EmptyString, _ => true
  | String a p', String b s' => Ascii.eqb a b && is_prefix p' s'
  | String _ _, EmptyString => false
  end.

Fixpoint is_substring (p s : string) : bool :=
  is_prefix p s ||
  match s with
  | EmptyString => false
  | String _ s' => is_substring p s'
  end.

(** Membership [x in c]: equality against the elements of a list, key
    lookup in a dict (unhashable [x] raises), substring test in a string
    (a non-string [x] raises); other containers are not iterable. *)
Definition py_in (x c : json) : res bool :=
  match c with
  | JArr ys => Ok (existsb (py_eqb x) ys)
  | JObj kvs =>
      match x with
      | JArr _ | JObj _ => Raise PyTypeError
      | JStr k => Ok (dict_mem k kvs)
      | _ => Ok false
      end
  | JStr s =>
      match x with
      | JStr p => Ok (is_substring p s)
      | _ => Raise PyTypeError
      end
  | _ => Raise PyTypeError
  end.

(** [x is None] *)
Definition is_None (v : json) : bool :=
  match v with JNull => true | _ => false end.

(** ** constants.py *)

Definition DEVICE_ATTRIBUTES : list string :=
  [ "description"; "short_name"; "long_name"; "serial_number";
    "manufacturer_uri"; "manufacturer_name"; "device_type_uri";
    "device_type_name"; "status_uri"; "status_name"; "model";
    "inventory_number"; "schema_version"; "identifer_type"; "website";
    "group_ids"; "is_private"; "is_internal"; "is_public"; "keywords";
    "country" ].

Definition MIN_PRIVATE_DEVICE_ATTRIBUTES : list string :=
  [ "short_name"; "manufacturer_name"; "is_private"; "is_internal";
    "is_public" ].

Definition MIN_INTERNAL_DEVICE_ATTRIBUTES : list string :=
  MIN_PRIVATE_DEVICE_ATTRIBUTES ++ [ "group_ids" ].

Definition MIN_PUBLIC_DEVICE_ATTRIBUTES : list string :=
  MIN_INTERNAL_DEVICE_ATTRIBUTES ++ [].

Definition SITE_ATTRIBUTES : list string :=
  [ "label"; "geometry"; "description"; "epsg_code"; "is_internal";
    "is_public"; "group_ids"; "street"; "street_number"; "city";
    "zip_code"; "country"; "building"; "room"; "site_type_uri";
    "site_type_name"; "site_usage_uri"; "site_usage_name"; "elevation";
    "elevation_datum_name"; "elevation_datum_uri"; "website"; "keywords" ].

(** ** The world: HTTP transport, standard output, caller-owned dicts *)

Inductive http_method : Type := GET | POST | PATCH.

(** The part of the URL after [base_url].  An id is kept as the Python
    value that the f-string formats. *)
Inductive path : Type :=
| devices_path                                  (* /devices *)
| device_path (device_id : json)                (* /devices/{device_id} *)
| device_properties_of (device_id : json)
    (* /device-properties?filter[device_id]={device_id} *)
| sites_path                                    (* /sites *)
| site_path (site_id : json)                    (* /sites/{site_id} *)
| site_configurations_path (site_id : json)
    (* /sites/{site_id}/configurations *)
| user_info_path                                (* /user-info *)
| permission_groups_path.                       (* /permission-groups *)

(** [json.dumps({"data": {"id": f"{id}", "type": type, "attributes":
    attributes}})]; creation has no id. *)
Record envelope : Type := mkEnvelope {
  env_type : string;
  env_id : option json;
  env_attributes : dict
}.

Definition header_map : Type := list (string * option string).

Record Request : Type := mkRequest {
  method : http_method;
  url_base : string;
  url_path : path;
  req_headers : header_map;
  data : option envelope
}.

Record Response : Type := mkResponse {
  status_code : Z;
  response_json : json
}.

(** The backend answers a request knowing the requests sent before it. *)
Definition Backend : Type := list Request -> Request -> Response.

Definition loc : Type := nat.

Record World : Type := mkWorld {
  sent : list Request;          (* requests issued so far, oldest first *)
  stdout : list string;         (* lines printed so far *)
  store : gmap loc dict;        (* the dicts callers hold references to *)
  getenv_SENSORS_API_KEY : option string
}.

Definition log_request (r : Request) (w : World) : World :=
  mkWorld (sent w ++ [r]) (stdout w) (store w) (getenv_SENSORS_API_KEY w).

Definition log_line (line : string) (w : World) : World :=
  mkWorld (sent w) (stdout w ++ [line]) (store w)
    (getenv_SENSORS_API_KEY w).

Definition set_store (l : loc) (d : dict) (w : World) : World :=
  mkWorld (sent w) (stdout w) (<[l := d]> (store w))
    (getenv_SENSORS_API_KEY w).

(** ** The monad of methods: state (receiver and world) and exceptions *)

Record State (Self : Type) : Type := mkState {
  self : Self;
  world : World
}.
Arguments mkState {Self} self world.
Arguments self {Self} s.
Arguments world {Self} s.

Definition M (Self A : Type) : Type := State Self -> res A * State Self.

Definition ret {Self A} (a : A) : M Self A := fun st => (Ok a, st).

Definition bind {Self A B} (c : M Self A) (k : A -> M Self B) : M Self B :=
  fun st =>
    match c st with
    | (Ok a, st') => k a st'
    | (Raise e, st') => (Raise e, st')
    end.

Definition raise {Self A} (e : exn) : M Self A := fun st => (Raise e, st).

Definition lift {Self A} (r : res A) : M Self A := fun st => (r, st).

Definition get_self {Self} : M Self Self := fun st => (Ok (self st), st).

Definition set_self {Self} (f : Self -> Self) : M Self unit :=
  fun st => (Ok tt, mkState (f (self st)) (world st)).

Definition get_world {Self} : M Self World := fun st => (Ok (world st), st).

Definition set_world {Self} (f : World -> World) : M Self unit :=
  fun st => (Ok tt, mkState (self st) (f (world st))).

Notation "x <- c ;; k" := (bind c (fun x => k))
  (at level 100, c at next level, right associativity).
Notation "c ;;; k" := (bind c (fun _ => k))
  (at level 100, right associativity).

(** [print(line)] *)
Definition print {Self} (line : string) : M Self unit :=
  set_world (log_line line).

(** ** core.py *)

Record CoreApi : Type := mkCoreApi {
  api_key : option string;
  base_url : string;
  headers : header_map
}.

(** [api_key or os.getenv("SENSORS_API_KEY")]: [None] and the empty
    string are falsy. *)
Definition api_key_or (api_key env : option string) : option string :=
  match api_key with
  | Some k => if String.eqb k "" then env else Some k
  | None => env
  end.

Module Core.

(** [env] is the value of [os.getenv("SENSORS_API_KEY")]. *)
Definition __init__ (env : option string) (api_key : option string)
    : CoreApi :=
  let api_key := api_key_or api_key env in
  {| api_key := api_key;
     base_url := "https://pid-sms-tst.bodc.uk/backend/api/v1";
     headers := [ ("accept", Some "application/vnd.api+json");
                  ("X-APIKEY", api_key);
                  ("Content-Type", Some "application/vnd.api+json") ] |}.

(** [self.api_key = api_key]; nothing else is assigned. *)
Definition add_api_key (c : CoreApi) (key : string) : CoreApi :=
  {| api_key := Some key; base_url := base_url c; headers := headers c |}.

End Core.

(** Subclasses of [CoreApi] carry its attributes. *)
Class CoreApiSub (Self : Type) : Type := {
  core : Self -> CoreApi;
  with_core : CoreApi -> Self -> Self
}.

#[export] Instance CoreApi_sub : CoreApiSub CoreApi :=
  {| core := fun c => c; with_core := fun c _ => c |}.

Section Transport.
Context (backend : Backend) {Self : Type} `{CoreApiSub Self}.

(** [requests.<method>(f"{self.base_url}<path>", headers=self.headers,
    data=...)]: the request is logged and the backend answers.  A
    transport that fails to deliver, and a body that is not JSON, are
    outside the model. *)
Definition http (m : http_method) (p : path) (d : option envelope)
    : M Self Response :=
  fun st =>
    let c := core (self st) in
    let r := mkRequest m (base_url c) p (headers c) d in
    (Ok (backend (sent (world st)) r),
     mkState (self st) (log_request r (world st))).

(** The inherited method [add_api_key]. *)
Definition add_api_key (key : string) : M Self unit :=
  set_self (fun s => with_core (Core.add_api_key (core s) key) s).
End Transport.

(** Reading and writing a dict object through a reference. *)
Definition read_dict {Self} (l : loc) : M Self dict :=
  fun st =>
    match store (world st) !! l with
    | Some d => (Ok d, st)
    | None => (Raise PyNameError, st)
    end.

Definition write_dict {Self} (l : loc) (d : dict) : M Self unit :=
  set_world (set_store l d).

(** The loop shared by [update_device_by_id] and [update_site_by_id]:
    [for attr in attributes.keys(): if attr not in allowed:
    invalid_attrs.append(attr)]. *)
Fixpoint invalid_attrs_loop (keys allowed invalid_attrs : list string)
    : list string :=
  match keys with
  | [] => invalid_attrs
  | attr :: rest =>
      invalid_attrs_loop rest allowed
        (if negb (str_in attr allowed) then invalid_attrs ++ [attr]
         else invalid_attrs)
  end.

(** ** devices.py *)

Module Devices.

Record t : Type := mk {
  super : CoreApi;
  all_device_data : json      (* [JNull] is Python's [None] *)
}.

#[global] Instance sub : CoreApiSub t :=
  {| core := super; with_core := fun c d => mk c (all_device_data d) |}.

Definition __init__ (w : World) (api_key : option string) : t :=
  mk (Core.__init__ (getenv_SENSORS_API_KEY w) api_key) JNull.

(** The body of the loop of [_check_device_visibility] up to the
    [if value:] test: the coercion of one flag. *)
Definition coerce_flag (key : string) (value : json) : res bool :=
  match value with
  | JStr s =>
      let value := lower s in
      if str_in value ["true"; "1"] then Ok true
      else if str_in value ["false"; "0"] then Ok false
      else Raise (InvalidAttributeValue key s)
  | JBool b => Ok b
  | _ => Raise (InvalidAttributeType key)
  end.

(** [for key in keys: ...; if value: true_keys.append(key)] *)
Fixpoint visibility_loop (keys : list string) (input_dict : dict)
    (true_keys : list string) : res (list string) :=
  match keys with
  | [] => Ok true_keys
  | key :: rest =>
      let? value := getitem (JObj input_dict) key in
      let? value := coerce_flag key value in
      visibility_loop rest input_dict
        (if value then true_keys ++ [key] else true_keys)
  end.

Definition _check_device_visibility (input_dict : dict) : res string :=
  let? true_keys :=
    visibility_loop ["is_public"; "is_internal"; "is_private"] input_dict [] in
  if (1 <? length true_keys)%nat then Raise (ConflictingVisibility true_keys)
  else if (length true_keys =? 0)%nat then Raise NoVisibilitySet
  else match true_keys with
       | k :: _ => Ok k
       | [] => Raise PyIndexError
       end.

(** [for device in ...: if device["attributes"]["short_name"] ==
    device_name: return device], then the [raise]. *)
Fixpoint get_device_by_name_loop (devices : list json) (device_name : string)
    : res json :=
  match devices with
  | [] => Raise (NotFound device_name)
  | device :: rest =>
      let? attributes := getitem device "attributes" in
      let? short_name := getitem attributes "short_name" in
      if py_eqb short_name (JStr device_name) then Ok device
      else get_device_by_name_loop rest device_name
  end.

(** The loop of [add_device] over [attributes.keys()]: the first key
    outside [DEVICE_ATTRIBUTES] raises. *)
Fixpoint add_device_loop (keys min_reqs given_min_reqs : list string)
    : res (list string) :=
  match keys with
  | [] => Ok given_min_reqs
  | attr :: rest =>
      if negb (str_in attr DEVICE_ATTRIBUTES)
      then Raise (InvalidAttribute [attr])
      else add_device_loop rest min_reqs
             (if str_in attr min_reqs then given_min_reqs ++ [attr]
              else given_min_reqs)
  end.

Section Methods.
Context (backend : Backend).

Definition get_devices : M t unit :=
  response <- http backend GET devices_path None ;;
  if negb (status_code response =? 200)%Z
  then raise (RequestFailed "get devices" None (status_code response))
  else set_self (fun d => mk (super d) (response_json response)).

Definition get_device_by_id (device_id : json) : M t json :=
  response <- http backend GET (device_path device_id) None ;;
  if negb (status_code response =? 200)%Z
  then raise (RequestFailed "get device" None (status_code response))
  else lift (getitem (response_json response) "data").

Definition get_device_by_name (device_name : string) : M t json :=
  d <- get_self ;;
  (if is_None (all_device_data d) then get_devices else ret tt) ;;;
  d <- get_self ;;
  lift (let? data := getitem (all_device_data d) "data" in
        let? devices := py_iter data in
        get_device_by_name_loop devices device_name).

Definition get_device_properties (device_id : json)
    (device_name : option string) : M t json :=
  (match device_name with
   | Some name =>
       if negb (is_None device_id) then
         device <- get_device_by_id device_id ;;
         short_name <- lift (let? attributes := getitem device "attributes" in
                             getitem attributes "short_name") ;;
         if negb (py_eqb short_name (JStr name)) then raise IdentifierMismatch
         else ret tt
       else ret tt
   | None => ret tt
   end) ;;;
  (match device_name with
   | None => if is_None device_id then raise MissingIdentifier else ret tt
   | Some _ => ret tt
   end) ;;;
  device_id <- match device_name with
               | Some name =>
                   device <- get_device_by_name name ;;
                   lift (getitem device "id")
               | None => ret device_id
               end ;;
  response <- http backend GET (device_properties_of device_id) None ;;
  if negb (status_code response =? 200)%Z
  then raise (RequestFailed "get device properties" None (status_code response))
  else ret (response_json response).

Definition update_device_by_id (device_id : json) (attributes : loc)
    : M t unit :=
  attrs <- read_dict attributes ;;
  let invalid_attrs :=
    invalid_attrs_loop (dict_keys attrs) DEVICE_ATTRIBUTES [] in
  if (0 <? length invalid_attrs)%nat then raise (InvalidAttribute invalid_attrs)
  else
    response <- http backend PATCH (device_path device_id)
                  (Some (mkEnvelope "device" (Some device_id) attrs)) ;;
    if negb (status_code response =? 200)%Z
    then raise (RequestFailed "update device" (Some device_id)
                  (status_code response))
    else ret tt.

Definition update_device_by_name (device_name : string) (attributes : loc)
    : M t unit :=
  device <- get_device_by_name device_name ;;
  device_id <- lift (getitem device "id") ;;
  update_device_by_id device_id attributes.

(** [for key in keys: if key not in attributes: attributes[key] =
    False], on the caller's dict. *)
Fixpoint fill_visibility (keys : list string) (attributes : loc)
    : M t unit :=
  match keys with
  | [] => ret tt
  | key :: rest =>
      attrs <- read_dict attributes ;;
      (if negb (dict_mem key attrs)
       then write_dict attributes (dict_set attrs key (JBool false))
       else ret tt) ;;;
      fill_visibility rest attributes
  end.

Definition add_device (attributes : loc) : M t unit :=
  fill_visibility ["is_private"; "is_internal"; "is_public"] attributes ;;;
  attrs <- read_dict attributes ;;
  vis <- lift (_check_device_visibility attrs) ;;
  let min_reqs :=
    if String.eqb vis "is_private" then MIN_PRIVATE_DEVICE_ATTRIBUTES
    else if String.eqb vis "is_internal" then MIN_INTERNAL_DEVICE_ATTRIBUTES
    else MIN_PUBLIC_DEVICE_ATTRIBUTES in
  given_min_reqs <- lift (add_device_loop (dict_keys attrs) min_reqs []) ;;
  if negb (length min_reqs =? length given_min_reqs)%nat
  then raise (MissingRequiredAttributes
                (list_to_set min_reqs ∖ list_to_set given_min_reqs))
  else
    response <- http backend POST devices_path
                  (Some (mkEnvelope "device" None attrs)) ;;
    if negb (status_code response =? 201)%Z
    then raise (RequestFailed "add new device" None (status_code response))
    else ret tt.
End Methods.

End Devices.

(** ** sites.py *)

Module Sites.

Record t : Type := mk {
  super : CoreApi;
  all_site_data : json
}.

#[global] Instance sub : CoreApiSub t :=
  {| core := super; with_core := fun c d => mk c (all_site_data d) |}.

Definition __init__ (w : World) (api_key : option string) : t :=
  mk (Core.__init__ (getenv_SENSORS_API_KEY w) api_key) JNull.

Fixpoint get_site_by_name_loop (sites : list json) (site_name : string)
    : res json :=
  match sites with
  | [] => Raise (NotFound site_name)
  | site :: rest =>
      let? attributes := getitem site "attributes" in
      let? label := getitem attributes "label" in
      if py_eqb label (JStr site_name) then Ok site
      else get_site_by_name_loop rest site_name
  end.

Section Methods.
Context (backend : Backend).

Definition get_sites : M t unit :=
  response <- http backend GET sites_path None ;;
  if negb (status_code response =? 200)%Z
  then raise (RequestFailed "get sites" None (status_code response))
  else set_self (fun d => mk (super d) (response_json response)).

Definition get_site_by_id (site_id : json) : M t json :=
  response <- http backend GET (site_path site_id) None ;;
  if negb (status_code response =? 200)%Z
  then raise (RequestFailed "get site" None (status_code response))
  else lift (getitem (response_json response) "data").

Definition get_site_by_name (site_name : string) : M t json :=
  d <- get_self ;;
  (if is_None (all_site_data d) then get_sites else ret tt) ;;;
  d <- get_self ;;
  lift (let? data := getitem (all_site_data d) "data" in
        let? sites := py_iter data in
        get_site_by_name_loop sites site_name).

Definition get_site_configurations (site_id : json)
    (site_name : option string) : M t json :=
  (match site_name with
   | Some name =>
       if negb (is_None site_id) then
         site <- get_site_by_id site_id ;;
         label <- lift (let? attributes := getitem site "attributes" in
                        getitem attributes "label") ;;
         if negb (py_eqb label (JStr name)) then raise IdentifierMismatch
         else ret tt
       else ret tt
   | None => ret tt
   end) ;;;
  (match site_name with
   | None => if is_None site_id then raise MissingIdentifier else ret tt
   | Some _ => ret tt
   end) ;;;
  site_id <- match site_name with
             | Some name =>
                 site <- get_site_by_name name ;;
                 lift (getitem site "id")
             | None => ret site_id
             end ;;
  response <- http backend GET (site_configurations_path site_id) None ;;
  if negb (status_code response =? 200)%Z
  then raise (RequestFailed "get configuration" None (status_code response))
  else ret (response_json response).

Definition update_site_by_id (site_id : json) (attributes : loc)
    : M t unit :=
  attrs <- read_dict attributes ;;
  let invalid_attrs :=
    invalid_attrs_loop (dict_keys attrs) SITE_ATTRIBUTES [] in
  if (0 <? length invalid_attrs)%nat then raise (InvalidAttribute invalid_attrs)
  else
    response <- http backend PATCH (site_path site_id)
                  (Some (mkEnvelope "site" (Some site_id) attrs)) ;;
    if negb (status_code response =? 200)%Z
    then raise (RequestFailed "update site" (Some site_id)
                  (status_code response))
    else ret tt.

Definition update_site_by_name (site_name : string) (attributes : loc)
    : M t unit :=
  site <- get_site_by_name site_name ;;
  site_id <- lift (getitem site "id") ;;
  update_site_by_id site_id attributes.
End Methods.

End Sites.

(** ** user.py *)

Module UserInfo.

Record t : Type := mk {
  super : CoreApi;
  user_info : json;           (* [JNull] is Python's [None] *)
  user_groups : json
}.

#[global] Instance sub : CoreApiSub t :=
  {| core := super;
     with_core := fun c u => mk c (user_info u) (user_groups u) |}.

(** [for group in ...: if group["id"] in user_group_ids:
    user_group_list.append(group)] *)
Fixpoint get_user_groups_loop (groups : list json) (user_group_ids : json)
    (user_group_list : list json) : res (list json) :=
  match groups with
  | [] => Ok user_group_list
  | group :: rest =>
      let? id := getitem group "id" in
      let? found := py_in id user_group_ids in
      get_user_groups_loop rest user_group_ids
        (if found then user_group_list ++ [group] else user_group_list)
  end.

Section Methods.
Context (backend : Backend).

Definition _check_user_api_key (verbose : bool) : M t bool :=
  u <- get_self ;;
  match api_key (super u) with
  | None =>
      (if verbose then print "[WARNING]: No user API key found."
       else ret tt) ;;;
      ret false
  | Some _ => ret true
  end.

Definition get_user_info : M t json :=
  has_key <- _check_user_api_key true ;;
  if negb has_key then ret JNull
  else
    response <- http backend GET user_info_path None ;;
    if negb (status_code response =? 200)%Z
    then raise (RequestFailed "get user info" None (status_code response))
    else ret (response_json response).

Definition get_all_groups : M t json :=
  response <- http backend GET permission_groups_path None ;;
  if negb (status_code response =? 200)%Z
  then raise (RequestFailed "get groups" None (status_code response))
  else ret (response_json response).

Definition get_user_groups : M t json :=
  u <- get_self ;;
  go_on <- (if is_None (user_info u) then
              has_key <- _check_user_api_key true ;;
              if has_key then
                info <- get_user_info ;;
                set_self (fun u => mk (super u) info (user_groups u)) ;;;
                ret true
              else ret false
            else ret true) ;;
  if negb go_on then ret JNull
  else
    all_perm_groups <- get_all_groups ;;
    u <- get_self ;;
    user_group_ids <- lift (let? data := getitem (user_info u) "data" in
                            let? attributes := getitem data "attributes" in
                            getitem attributes "member") ;;
    groups <- lift (let? data := getitem all_perm_groups "data" in
                    py_iter data) ;;
    user_group_list <- lift (get_user_groups_loop groups user_group_ids []) ;;
    ret (JArr user_group_list).

(** The constructor: the attributes are assigned in source order; an
    exception leaves no object. *)
Definition __init__ (api_key : option string) (w : World)
    : res t * World :=
  let self0 := mk (Core.__init__ (getenv_SENSORS_API_KEY w) api_key)
                  JNull JNull in
  let body : M t unit :=
    info <- get_user_info ;;
    set_self (fun u => mk (super u) info (user_groups u)) ;;;
    groups <- get_user_groups ;;
    set_self (fun u => mk (super u) (user_info u) groups) in
  match body (mkState self0 w) with
  | (Ok _, st) => (Ok (self st), world st)
  | (Raise e, st) => (Raise e, world st)
  end.
End Methods.

End UserInfo.

(** ** Vocabulary of the specification *)

(** Equality of strings up to ASCII letter case. *)
Fixpoint ci_eqb (s t : string) : bool :=
  match s, t with
  | EmptyString, EmptyString => true
  | String a s', String b t' =>
      Ascii.eqb (lower_ascii a) (lower_ascii b) && ci_eqb s' t'
  | _, _ => false
  end.

(** A flag value the specification admits, and the boolean it stands
    for: a boolean, or one of "true", "1", "false", "0" in any case. *)
Inductive flag_reads : json -> bool -> Prop :=
| reads_bool (b : bool) : flag_reads (JBool b) b
| reads_true (s : string) :
    ci_eqb s "true" || ci_eqb s "1" = true -> flag_reads (JStr s) true
| reads_false (s : string) :
    ci_eqb s "false" || ci_eqb s "0" = true -> flag_reads (JStr s) false.

(** The flag keys that read as true. *)
Definition true_flags (is_public is_internal is_private : bool) : list string :=
  (if is_public then ["is_public"] else []) ++
  (if is_internal then ["is_internal"] else []) ++
  (if is_private then ["is_private"] else []).

(** The headers as a function of the key alone. *)
Definition headers_of (key : option string) : header_map :=
  [ ("accept", Some "application/vnd.api+json");
    ("X-APIKEY", key);
    ("Content-Type", Some "application/vnd.api+json") ].

(** The keys of a mapping outside an allow-list, in the mapping's order. *)
Definition offending (allowed : list string) (d : dict) : list string :=
  List.filter (fun attr => negb (str_in attr allowed)) (dict_keys d).

(** The default-fill of creation as a function on the mapping. *)
Definition fill_default (d : dict) (key : string) : dict :=
  if dict_mem key d then d else dict_set d key (JBool false).

Definition filled (d : dict) : dict :=
  fold_left fill_default ["is_private"; "is_internal"; "is_public"] d.

(** The required set [add_device] selects for a classified visibility. *)
Definition min_reqs_of (vis : string) : list string :=
  if String.eqb vis "is_private" then MIN_PRIVATE_DEVICE_ATTRIBUTES
  else if String.eqb vis "is_internal" then MIN_INTERNAL_DEVICE_ATTRIBUTES
  else MIN_PUBLIC_DEVICE_ATTRIBUTES.

(** The state once the caller's dict at [attributes] holds its filled
    form. *)
Definition after_fill {Self} (attributes : loc) (d : dict) (st : State Self)
    : State Self :=
  mkState (self st) (set_store attributes (filled d) (world st)).

(** The designated name field of the entity a by-id GET answered with:
    [response.json()["data"]["attributes"][field]]. *)
Definition name_field (field : string) (response : Response) : res json :=
  let? entity := getitem (response_json response) "data" in
  let? attributes := getitem entity "attributes" in
  getitem attributes field.

(** The request a method of [c] sends to [p] without a body. *)
Definition get_request (c : CoreApi) (p : path) : Request :=
  mkRequest GET (base_url c) p (headers c) None.

(** What the both-given branch decides from the by-id response: the
    request failure, the mismatch, or agreement. *)
Definition both_given_check (operation field : string) (response : Response)
    (name : string) : res unit :=
  if (status_code response =? 200)%Z then
    let? found := name_field field response in
    if py_eqb found (JStr name) then Ok tt else Raise IdentifierMismatch
  else Raise (RequestFailed operation None (status_code response)).

(** The membership list of a user-info document:
    [user_info["data"]["attributes"]["member"]]. *)
Definition member_list (user_info : json) : res json :=
  let? data := getitem user_info "data" in
  let? attributes := getitem data "attributes" in
  getitem attributes "member".

(** A group whose id is one of the listed member ids. *)
Definition listed_group (members : list json) (group : json) : bool :=
  match getitem group "id" with
  | Ok id => existsb (py_eqb id) members
  | Raise _ => false
  end.

(** What every object of the class satisfies: without a key there is no
    user information. *)
Definition key_invariant (u : UserInfo.t) : Prop :=
  api_key (UserInfo.super u) = None -> UserInfo.user_info u = JNull.

(** A computation that leaves the inherited attributes of the receiver
    as they are. *)
Definition keeps_super {A} (c : M UserInfo.t A) : Prop :=
  forall st, UserInfo.super (self (snd (c st))) = UserInfo.super (self st).

Definition no_key_warning : string := "[WARNING]: No user API key found.".

(** ** Sample inputs *)

Definition created_backend : Backend := fun _ _ => mkResponse 201 JNull.

Definition world_with (d : dict) : World := mkWorld [] [] {[ 0%nat := d ]} None.

Definition devices_with (d : dict) : State Devices.t :=
  mkState (Devices.__init__ (world_with d) None) (world_with d).

Definition sites_with (d : dict) : State Sites.t :=
  mkState (Sites.__init__ (world_with d) None) (world_with d).

Definition public_without_groups : dict :=
  [ ("short_name", JStr "X"); ("manufacturer_name", JStr "Y");
    ("is_public", JBool true) ].

Definition two_unknown_attributes : dict :=
  [ ("is_public", JBool true); ("bad1", JNum 1); ("bad2", JNum 2) ].

Definition one_unknown_attribute : dict :=
  [ ("not_a_real_attr", JStr "v") ].

(** A backend holding one device and one site, both of id 1 and named
    "A", with no properties and no configurations. *)
Definition device_a : json :=
  JObj [("id", JStr "1"); ("attributes", JObj [("short_name", JStr "A")])].

Definition site_a : json :=
  JObj [("id", JStr "1"); ("attributes", JObj [("label", JStr "A")])].

Definition named_a_backend : Backend :=
  fun _ r =>
    match url_path r with
    | devices_path => mkResponse 200 (JObj [("data", JArr [device_a])])
    | device_path _ => mkResponse 200 (JObj [("data", device_a)])
    | device_properties_of _ => mkResponse 200 (JObj [("data", JArr [])])
    | sites_path => mkResponse 200 (JObj [("data", JArr [site_a])])
    | site_path _ => mkResponse 200 (JObj [("data", site_a)])
    | site_configurations_path _ => mkResponse 200 (JObj [("data", JArr [])])
    | _ => mkResponse 404 JNull
    end.

Definition sample_user_info : json :=
  JObj [("data", JObj [("attributes",
          JObj [("member", JArr [JStr "2"; JStr "5"])])])].

Definition sample_groups : list json :=
  [ JObj [("id", JStr "1"); ("type", JStr "permission_group")];
    JObj [("id", JStr "2"); ("type", JStr "permission_group")];
    JObj [("id", JStr "5"); ("type", JStr "permission_group")] ].

Definition groups_backend : Backend :=
  fun _ r =>
    match url_path r with
    | permission_groups_path =>
        mkResponse 200 (JObj [("data", JArr sample_groups)])
    | user_info_path => mkResponse 200 sample_user_info
    | _ => mkResponse 404 JNull
    end.

Definition user_with (key : option string) (info : json) : State UserInfo.t :=
  mkState (UserInfo.mk (Core.__init__ None key) info JNull) (world_with []).

(** ** Vocabulary for the behaviour beyond the specification *)

(** What is wrong with one visibility flag of a mapping, as the error
    the classification raises for it. *)
Inductive flag_fault (d : dict) (key : string) : exn -> Prop :=
| fault_missing :
    dict_get d key = None -> flag_fault d key (PyKeyError key)
| fault_value (s : string) :
    dict_get d key = Some (JStr s) ->
    (forall b, ~ flag_reads (JStr s) b) ->
    flag_fault d key (InvalidAttributeValue key s)
| fault_type (v : json) :
    dict_get d key = Some v ->
    (forall s, v <> JStr s) -> (forall b, v <> JBool b) ->
    flag_fault d key (InvalidAttributeType key).

(** One pass of the classification loop over a flag: the lookup and the
    coercion. *)
Definition read_flag (d : dict) (key : string) : res bool :=
  let? value := getitem (JObj d) key in Devices.coerce_flag key value.

(** The flags [add_device] has to add to a mapping, in the order it adds
    them. *)
Definition missing_flags (d : dict) : list string :=
  List.filter (fun key => negb (dict_mem key d))
    ["is_private"; "is_internal"; "is_public"].

(** The POST that [add_device] sends for a mapping. *)
Definition create_request (c : CoreApi) (d : dict) : Request :=
  mkRequest POST (base_url c) devices_path (headers c)
    (Some (mkEnvelope "device" None (filled d))).

(** A mapping that passes the checks of [add_device] for class [vis]. *)
Definition creatable (d : dict) (vis : string) : Prop :=
  Devices._check_device_visibility (filled d) = Ok vis /\
  offending DEVICE_ATTRIBUTES d = [] /\
  (forall name, In name (min_reqs_of vis) -> dict_mem name (filled d) = true).

(** The required names [add_device] finds among the keys. *)
Definition given_reqs (d : dict) (vis : string) : list string :=
  List.filter (fun attr => str_in attr (min_reqs_of vis)) (dict_keys (filled d)).

(** The PATCH an update sends. *)
Definition update_request (c : CoreApi) (type : string) (p : path)
    (id : json) (attrs : dict) : Request :=
  mkRequest PATCH (base_url c) p (headers c)
    (Some (mkEnvelope type (Some id) attrs)).





(** The by-name search of a snapshot held in memory. *)
Definition device_in_snapshot (snapshot : json) (name : string) : res json :=
  let? data := getitem snapshot "data" in
  let? devices := py_iter data in
  Devices.get_device_by_name_loop devices name.

Definition site_in_snapshot (snapshot : json) (name : string) : res json :=
  let? data := getitem snapshot "data" in
  let? sites := py_iter data in
  Sites.get_site_by_name_loop sites name.

(** The calls a user of a [UserInfo] object can make. *)
Inductive user_call : Type :=
| call_add_api_key (key : string)
| call_check_user_api_key (verbose : bool)
| call_get_user_info
| call_get_all_groups
| call_get_user_groups.

(** The state a call leaves, whether it returns or raises. *)
Definition after_call (backend : Backend) (c : user_call)
    (st : State UserInfo.t) : State UserInfo.t :=
  match c with
  | call_add_api_key key => snd (add_api_key key st)
  | call_check_user_api_key verbose =>
      snd (UserInfo._check_user_api_key verbose st)
  | call_get_user_info => snd (UserInfo.get_user_info backend st)
  | call_get_all_groups => snd (UserInfo.get_all_groups backend st)
  | call_get_user_groups => snd (UserInfo.get_user_groups backend st)
  end.

(** The states of an object from its construction on: any calls, and
    any change of the world between them. *)
Inductive user_reachable (backend : Backend) : State UserInfo.t -> Prop :=
| reach_init (key : option string) (w w' : World) (u : UserInfo.t) :
    UserInfo.__init__ backend key w = (Ok u, w') ->
    user_reachable backend (mkState u w')
| reach_call (c : user_call) (st : State UserInfo.t) :
    user_reachable backend st ->
    user_reachable backend (after_call backend c st)
| reach_world (st : State UserInfo.t) (w : World) :
    user_reachable backend st ->
    user_reachable backend (mkState (self st) w).

(** A request sent to the base URL and with the headers of [c]. *)
Definition carries (c : CoreApi) (r : Request) : Prop :=
  url_base r = base_url c /\ req_headers r = headers c.

(** What a method may do to the world: append requests that carry the
    object's base URL and headers, print lines allowed by [lines_ok],
    and write the caller's dicts at the references in [writable]. *)
Definition world_step (c : CoreApi) (lines_ok : string -> Prop)
    (writable : loc -> Prop) (w w' : World) : Prop :=
  (exists new, sent w' = sent w ++ new /\ Forall (carries c) new) /\
  (exists lines, stdout w' = stdout w ++ lines /\ Forall lines_ok lines) /\
  getenv_SENSORS_API_KEY w' = getenv_SENSORS_API_KEY w /\
  (forall l, ~ writable l -> store w' !! l = store w !! l).

(** A computation that keeps the inherited attributes of the receiver
    (key, base URL, headers) and changes the world by a [world_step]. *)
Definition orderly {Self} `{CoreApiSub Self} {A} (lines_ok : string -> Prop)
    (writable : loc -> Prop) (m : M Self A) : Prop :=
  forall st,
    core (self (snd (m st))) = core (self st) /\
    world_step (core (self st)) lines_ok writable
      (world st) (world (snd (m st))).

Definition nothing {X} : X -> Prop := fun _ => False.

(** A flag that is present and admissible. *)
Definition flag_fine (d : dict) (key : string) : Prop :=
  exists v b, dict_get d key = Some v /\ flag_reads v b.

Definition complete_public_device : dict :=
  [ ("short_name", JStr "X"); ("manufacturer_name", JStr "Y");
    ("is_public", JStr "True"); ("group_ids", JArr [JStr "3"]) ].

(** The object built with no key, given or in the environment. *)
Definition keyless_user : State UserInfo.t :=
  mkState (UserInfo.mk (Core.__init__ None None) JNull JNull)
    (log_line no_key_warning (log_line no_key_warning (world_with []))).

(** A backend in which two devices, of ids 1 and 7, have the short name
    "A", and two sites, of ids 1 and 7, have the label "A".  The entity
    fetched by id is the one of that id; a properties or configurations
    document names the entity it was requested for. *)
Definition twin (field id : string) : json :=
  JObj [("id", JStr id); ("attributes", JObj [(field, JStr "A")])].

Definition document_for (kind : string) (id : json) : json :=
  JObj [("data",
         JArr [JObj [("relationships",
                      JObj [(kind, JObj [("data", JObj [("id", id)])])])]])].

Definition twins_backend : Backend :=
  fun _ r =>
    match url_path r with
    | devices_path =>
        mkResponse 200
          (JObj [("data", JArr [twin "short_name" "1"; twin "short_name" "7"])])
    | device_path (JStr id) =>
        mkResponse 200 (JObj [("data", twin "short_name" id)])
    | device_properties_of id => mkResponse 200 (document_for "device" id)
    | sites_path =>
        mkResponse 200 (JObj [("data", JArr [twin "label" "1"; twin "label" "7"])])
    | site_path (JStr id) => mkResponse 200 (JObj [("data", twin "label" id)])
    | site_configurations_path id => mkResponse 200 (document_for "site" id)
    | _ => mkResponse 404 JNull
    end.

(** A backend that knows the user and no groups, and one that answers
    every request with status 200 and the body null. *)
Definition info_only_backend : Backend :=
  fun _ r =>
    match url_path r with
    | user_info_path => mkResponse 200 sample_user_info
    | _ => mkResponse 404 JNull
    end.

Definition null_backend : Backend := fun _ _ => mkResponse 200 JNull.

(** * Properties *)

Ltac run_monad :=
  unfold print, read_dict, write_dict, http;
  unfold bind, ret, raise, lift, get_self, set_self, get_world, set_world;
  cbn [fst snd self world sent stdout store getenv_SENSORS_API_KEY
       log_request log_line set_store].

(** ** Strings and dictionaries *)

Lemma ci_eqb_lower (s t : string) :
  ci_eqb s t = true -> lower s = lower t.
Proof.
  revert t; induction s as [|a s IH]; intros [|b t]; simpl; try discriminate.
  - reflexivity.
  - intros Hc. apply andb_true_iff in Hc as [Hab Hst].
    apply Ascii.eqb_eq in Hab. rewrite Hab. f_equal. now apply IH.
Qed.

Lemma coerce_flag_reads (key : string) (v : json) (b : bool) :
  flag_reads v b -> Devices.coerce_flag key v = Ok b.
Proof.
  intros [b'|s Hs|s Hs]; simpl.
  - reflexivity.
  - apply orb_true_iff in Hs as [Hs|Hs]; apply ci_eqb_lower in Hs;
      rewrite Hs; reflexivity.
  - apply orb_true_iff in Hs as [Hs|Hs]; apply ci_eqb_lower in Hs;
      rewrite Hs; reflexivity.
Qed.

(** ** The minimum-required sets *)

(** C6: every attribute required for a private device is required for an
    internal one, and every attribute required for an internal device is
    required for a public one. *)
Theorem min_attributes_superset_law (a : string) :
  (In a MIN_PRIVATE_DEVICE_ATTRIBUTES -> In a MIN_INTERNAL_DEVICE_ATTRIBUTES) /\
  (In a MIN_INTERNAL_DEVICE_ATTRIBUTES -> In a MIN_PUBLIC_DEVICE_ATTRIBUTES).
Proof.
  unfold MIN_PUBLIC_DEVICE_ATTRIBUTES, MIN_INTERNAL_DEVICE_ATTRIBUTES.
  split; intros Ha; apply in_or_app; now left.
Qed.

Lemma min_attributes_superset_law_witness :
  In "short_name" MIN_PRIVATE_DEVICE_ATTRIBUTES /\
  In "short_name" MIN_INTERNAL_DEVICE_ATTRIBUTES /\
  In "group_ids" MIN_INTERNAL_DEVICE_ATTRIBUTES /\
  In "group_ids" MIN_PUBLIC_DEVICE_ATTRIBUTES.
Proof.
  assert (Hp : In "short_name" MIN_PRIVATE_DEVICE_ATTRIBUTES)
    by (simpl; tauto).
  assert (Hi : In "group_ids" MIN_INTERNAL_DEVICE_ATTRIBUTES)
    by (simpl; tauto).
  split; [exact Hp|]. split.
  - exact (proj1 (min_attributes_superset_law "short_name") Hp).
  - split; [exact Hi|].
    exact (proj2 (min_attributes_superset_law "group_ids") Hi).
Defined.

(** ** Visibility classification *)

Lemma check_device_visibility_reads
    (d : dict) (v_public v_internal v_private : json)
    (b_public b_internal b_private : bool) :
  dict_get d "is_public" = Some v_public ->
  dict_get d "is_internal" = Some v_internal ->
  dict_get d "is_private" = Some v_private ->
  flag_reads v_public b_public ->
  flag_reads v_internal b_internal ->
  flag_reads v_private b_private ->
  Devices._check_device_visibility d =
    match true_flags b_public b_internal b_private with
    | [] => Raise NoVisibilitySet
    | [key] => Ok key
    | keys => Raise (ConflictingVisibility keys)
    end.
Proof.
  intros Gpub Gint Gpriv Rpub Rint Rpriv.
  unfold Devices._check_device_visibility, Devices.visibility_loop, getitem.
  rewrite Gpub, Gint, Gpriv. cbn [res_bind].
  rewrite (coerce_flag_reads _ _ _ Rpub). cbn [res_bind].
  rewrite (coerce_flag_reads _ _ _ Rint). cbn [res_bind].
  rewrite (coerce_flag_reads _ _ _ Rpriv). cbn [res_bind].
  destruct b_public, b_internal, b_private; reflexivity.
Qed.

(** C1: on a mapping that holds the three flags, each a boolean or one
    of "true", "1", "false", "0" in any letter case,
    [_check_device_visibility] returns the one key that reads as true,
    raises the no-visibility error when none does, and raises the
    conflicting-visibility error carrying exactly the keys that read as
    true when two or more do. *)
Theorem check_device_visibility_classifies
    (d : dict) (v_public v_internal v_private : json)
    (b_public b_internal b_private : bool) :
  dict_get d "is_public" = Some v_public ->
  dict_get d "is_internal" = Some v_internal ->
  dict_get d "is_private" = Some v_private ->
  flag_reads v_public b_public ->
  flag_reads v_internal b_internal ->
  flag_reads v_private b_private ->
  Devices._check_device_visibility d =
    match true_flags b_public b_internal b_private with
    | [] => Raise NoVisibilitySet
    | [key] => Ok key
    | keys => Raise (ConflictingVisibility keys)
    end
  /\ (forall key, In key (true_flags b_public b_internal b_private) <->
        (key = "is_public" /\ b_public = true) \/
        (key = "is_internal" /\ b_internal = true) \/
        (key = "is_private" /\ b_private = true)).
Proof.
  intros Gpub Gint Gpriv Rpub Rint Rpriv. split.
  - now apply (check_device_visibility_reads d v_public v_internal v_private).
  - intros key.
    destruct b_public, b_internal, b_private; simpl;
      intuition (try discriminate; try congruence).
Qed.

Lemma check_device_visibility_classifies_witness :
  Devices._check_device_visibility
    [("is_private", JStr "TRUE"); ("is_internal", JStr "0");
     ("is_public", JBool false)] = Ok "is_private".
Proof.
  exact (proj1 (check_device_visibility_classifies
    [("is_private", JStr "TRUE"); ("is_internal", JStr "0");
     ("is_public", JBool false)]
    (JBool false) (JStr "0") (JStr "TRUE") false false true
    eq_refl eq_refl eq_refl
    (reads_bool false) (reads_false "0" eq_refl) (reads_true "TRUE" eq_refl))).
Defined.

(** ** Authentication state *)

Lemma init_headers_of_key (env key : option string) :
  headers (Core.__init__ env key)
    = headers_of (api_key (Core.__init__ env key)).
Proof. reflexivity. Qed.

Lemma init_resolves_key (env key : option string) :
  api_key (Core.__init__ env key) =
    match key with
    | Some k => if String.eqb k "" then env else Some k
    | None => env
    end.
Proof. reflexivity. Qed.

(** C4: the headers are not kept a function of the current key.  An
    object built without a key (none given, none in the environment) and
    then given one by [add_api_key] holds the new key in [api_key] while
    its X-APIKEY header still holds no key, so the headers differ from
    the headers of that key. *)
Theorem add_api_key_leaves_headers_stale :
  let c := Core.add_api_key (Core.__init__ None None) "k" in
  api_key c = Some "k" /\
  headers c = headers_of None /\
  headers c <> headers_of (api_key c).
Proof.
  cbn. repeat split. discriminate.
Qed.

(** The same through the inherited method: after [add_api_key] a
    subclass object sends requests with the headers it was built with. *)
Lemma add_api_key_method_keeps_headers {Self} `{CoreApiSub Self}
    (key : string) (st : State Self) :
  (forall c s, core (with_core c s) = c) ->
  headers (core (self (snd (add_api_key key st)))) = headers (core (self st)).
Proof.
  intros Hc. unfold add_api_key, set_self; cbn. now rewrite Hc.
Qed.

(** ** The allow-list check *)

Lemma str_in_In (x : string) (l : list string) :
  str_in x l = true <-> In x l.
Proof.
  unfold str_in. rewrite existsb_exists. split.
  - intros [y [Hy He]]. apply String.eqb_eq in He. now subst.
  - intros Hx. exists x. split; [exact Hx | apply String.eqb_refl].
Qed.

Lemma invalid_attrs_loop_filter (keys allowed acc : list string) :
  invalid_attrs_loop keys allowed acc =
    acc ++ List.filter (fun attr => negb (str_in attr allowed)) keys.
Proof.
  revert acc; induction keys as [|k keys IH]; intros acc; simpl.
  - now rewrite app_nil_r.
  - rewrite IH. destruct (str_in k allowed); simpl.
    + reflexivity.
    + now rewrite <- app_assoc.
Qed.

Lemma offending_In (allowed : list string) (d : dict) (key : string) :
  In key (offending allowed d) <->
  In key (dict_keys d) /\ ~ In key allowed.
Proof.
  unfold offending. rewrite filter_In, negb_true_iff.
  rewrite <- (str_in_In key allowed).
  destruct (str_in key allowed); intuition congruence.
Qed.

Lemma offending_nonempty (allowed : list string) (d : dict) (key : string) :
  In key (dict_keys d) -> ~ In key allowed ->
  (0 <? length (offending allowed d))%nat = true.
Proof.
  intros Hk Ha.
  assert (Hin : In key (offending allowed d)) by (apply offending_In; tauto).
  destruct (offending allowed d); [destruct Hin | reflexivity].
Qed.

Lemma update_device_by_id_invalid (backend : Backend) (device_id : json)
    (attributes : loc) (d : dict) (st : State Devices.t) :
  store (world st) !! attributes = Some d ->
  (0 <? length (offending DEVICE_ATTRIBUTES d))%nat = true ->
  Devices.update_device_by_id backend device_id attributes st =
    (Raise (InvalidAttribute (offending DEVICE_ATTRIBUTES d)), st).
Proof.
  intros Hd Hne. unfold Devices.update_device_by_id. run_monad.
  rewrite Hd, invalid_attrs_loop_filter, app_nil_l.
  fold (offending DEVICE_ATTRIBUTES d). now rewrite Hne.
Qed.

Lemma update_site_by_id_invalid (backend : Backend) (site_id : json)
    (attributes : loc) (d : dict) (st : State Sites.t) :
  store (world st) !! attributes = Some d ->
  (0 <? length (offending SITE_ATTRIBUTES d))%nat = true ->
  Sites.update_site_by_id backend site_id attributes st =
    (Raise (InvalidAttribute (offending SITE_ATTRIBUTES d)), st).
Proof.
  intros Hd Hne. unfold Sites.update_site_by_id. run_monad.
  rewrite Hd, invalid_attrs_loop_filter, app_nil_l.
  fold (offending SITE_ATTRIBUTES d). now rewrite Hne.
Qed.

(** Name resolution reads the snapshot and issues at most the one GET
    that fills it; it never touches the caller's dicts. *)
Lemma get_device_by_name_world (backend : Backend) (name : string)
    (st : State Devices.t) :
  let out := Devices.get_device_by_name backend name st in
  store (world (snd out)) = store (world st) /\
  exists new, sent (world (snd out)) = sent (world st) ++ new /\
              Forall (fun r => method r = GET) new.
Proof.
  destruct st as [s w]. unfold Devices.get_device_by_name, Devices.get_devices.
  run_monad. destruct (is_None (Devices.all_device_data s)); run_monad.
  - destruct (negb _); run_monad; cbn; (split; [reflexivity|]);
      eexists; (split; [reflexivity|]); repeat constructor.
  - cbn. split; [reflexivity|]. exists []. rewrite app_nil_r. now split.
Qed.

Lemma get_site_by_name_world (backend : Backend) (name : string)
    (st : State Sites.t) :
  let out := Sites.get_site_by_name backend name st in
  store (world (snd out)) = store (world st) /\
  exists new, sent (world (snd out)) = sent (world st) ++ new /\
              Forall (fun r => method r = GET) new.
Proof.
  destruct st as [s w]. unfold Sites.get_site_by_name, Sites.get_sites.
  run_monad. destruct (is_None (Sites.all_site_data s)); run_monad.
  - destruct (negb _); run_monad; cbn; (split; [reflexivity|]);
      eexists; (split; [reflexivity|]); repeat constructor.
  - cbn. split; [reflexivity|]. exists []. rewrite app_nil_r. now split.
Qed.

Lemma update_device_by_name_invalid (backend : Backend) (name : string)
    (attributes : loc) (d : dict) (st : State Devices.t) :
  store (world st) !! attributes = Some d ->
  (0 <? length (offending DEVICE_ATTRIBUTES d))%nat = true ->
  exists e st',
    Devices.update_device_by_name backend name attributes st = (Raise e, st') /\
    store (world st') = store (world st) /\
    exists new, sent (world st') = sent (world st) ++ new /\
                Forall (fun r => method r = GET) new.
Proof.
  intros Hd Hne. unfold Devices.update_device_by_name, bind.
  pose proof (get_device_by_name_world backend name st) as Hw. cbv zeta in Hw.
  destruct (Devices.get_device_by_name backend name st) as [[device|e] st1];
    cbn [snd] in Hw; destruct Hw as [Hs Hn].
  - unfold lift. destruct (getitem device "id") as [device_id|e].
    + rewrite (update_device_by_id_invalid backend device_id attributes d st1)
        by (rewrite ?Hs; assumption).
      eauto.
    + eauto.
  - eauto.
Qed.

Lemma update_site_by_name_invalid (backend : Backend) (name : string)
    (attributes : loc) (d : dict) (st : State Sites.t) :
  store (world st) !! attributes = Some d ->
  (0 <? length (offending SITE_ATTRIBUTES d))%nat = true ->
  exists e st',
    Sites.update_site_by_name backend name attributes st = (Raise e, st') /\
    store (world st') = store (world st) /\
    exists new, sent (world st') = sent (world st) ++ new /\
                Forall (fun r => method r = GET) new.
Proof.
  intros Hd Hne. unfold Sites.update_site_by_name, bind.
  pose proof (get_site_by_name_world backend name st) as Hw. cbv zeta in Hw.
  destruct (Sites.get_site_by_name backend name st) as [[site|e] st1];
    cbn [snd] in Hw; destruct Hw as [Hs Hn].
  - unfold lift. destruct (getitem site "id") as [site_id|e].
    + rewrite (update_site_by_id_invalid backend site_id attributes d st1)
        by (rewrite ?Hs; assumption).
      eauto.
    + eauto.
  - eauto.
Qed.

(** ** Dictionaries and the default-fill *)

Lemma dict_get_set_eq (d : dict) (key : string) (v : json) :
  dict_get (dict_set d key v) key = Some v.
Proof.
  induction d as [|[k w] d IH]; simpl.
  - now rewrite String.eqb_refl.
  - destruct (String.eqb k key) eqn:E; simpl; rewrite E; [reflexivity | exact IH].
Qed.

Lemma dict_get_set_ne (d : dict) (key key' : string) (v : json) :
  key <> key' -> dict_get (dict_set d key v) key' = dict_get d key'.
Proof.
  intros Hne. induction d as [|[k w] d IH]; simpl.
  - destruct (String.eqb key key') eqn:E; [|reflexivity].
    apply String.eqb_eq in E. contradiction.
  - destruct (String.eqb k key) eqn:E; simpl.
    + apply String.eqb_eq in E. subst k.
      destruct (String.eqb key key') eqn:E'; [|reflexivity].
      apply String.eqb_eq in E'. contradiction.
    + destruct (String.eqb k key'); [reflexivity | exact IH].
Qed.

Lemma dict_keys_set_absent (d : dict) (key : string) (v : json) :
  dict_get d key = None -> dict_set d key v = d ++ [(key, v)].
Proof.
  induction d as [|[k w] d IH]; simpl; [reflexivity|].
  destruct (String.eqb k key); [discriminate|].
  intros Hn. now rewrite IH.
Qed.

Lemma fill_default_get (d : dict) (key key' : string) :
  dict_get (fill_default d key) key' =
    match dict_get d key' with
    | Some v => Some v
    | None => if String.eqb key key' then Some (JBool false) else None
    end.
Proof.
  unfold fill_default, dict_mem.
  destruct (dict_get d key) as [v|] eqn:Ek.
  - destruct (dict_get d key') as [v'|] eqn:Ek'; [reflexivity|].
    destruct (String.eqb key key') eqn:E; [|reflexivity].
    apply String.eqb_eq in E. congruence.
  - destruct (String.eqb key key') eqn:E.
    + apply String.eqb_eq in E. subst key'.
      now rewrite dict_get_set_eq, Ek.
    + rewrite dict_get_set_ne.
      * now destruct (dict_get d key').
      * intros ->. now rewrite String.eqb_refl in E.
Qed.

(** After the default-fill every key the caller supplied keeps its
    value and every flag the caller left out is bound to false. *)
Lemma filled_get (d : dict) (key : string) :
  dict_get (filled d) key =
    match dict_get d key with
    | Some v => Some v
    | None =>
        if str_in key ["is_private"; "is_internal"; "is_public"]
        then Some (JBool false) else None
    end.
Proof.
  unfold filled. cbn [fold_left]. rewrite !fill_default_get.
  destruct (dict_get d key); [reflexivity|].
  unfold str_in. cbn [existsb].
  rewrite (String.eqb_sym key "is_private"), (String.eqb_sym key "is_internal"),
    (String.eqb_sym key "is_public").
  destruct (String.eqb "is_private" key); [reflexivity|].
  destruct (String.eqb "is_internal" key); [reflexivity|].
  destruct (String.eqb "is_public" key); reflexivity.
Qed.

Lemma fill_default_offending (d : dict) (key : string) :
  str_in key DEVICE_ATTRIBUTES = true ->
  offending DEVICE_ATTRIBUTES (fill_default d key) = offending DEVICE_ATTRIBUTES d.
Proof.
  intros Hk. unfold fill_default, dict_mem.
  destruct (dict_get d key) eqn:E; [reflexivity|].
  rewrite (dict_keys_set_absent _ _ _ E). unfold offending, dict_keys.
  rewrite map_app, List.filter_app. cbn [map fst List.filter].
  rewrite Hk. cbn. apply app_nil_r.
Qed.

Lemma filled_offending (d : dict) :
  offending DEVICE_ATTRIBUTES (filled d) = offending DEVICE_ATTRIBUTES d.
Proof.
  unfold filled. cbn [fold_left].
  now rewrite !fill_default_offending by reflexivity.
Qed.

(** ** Device creation *)

Lemma set_store_same (l : loc) (d : dict) (w : World) :
  store w !! l = Some d -> set_store l d w = w.
Proof.
  intros Hd. destruct w as [rs out h env]. unfold set_store; cbn in *.
  now rewrite insert_id.
Qed.

Lemma set_store_twice (l : loc) (d d' : dict) (w : World) :
  set_store l d' (set_store l d w) = set_store l d' w.
Proof.
  unfold set_store; cbn. now rewrite insert_insert_eq.
Qed.

Lemma fill_visibility_run (keys : list string) (attributes : loc) (d : dict)
    (st : State Devices.t) :
  store (world st) !! attributes = Some d ->
  Devices.fill_visibility keys attributes st =
    (Ok tt, mkState (self st)
              (set_store attributes (fold_left fill_default keys d) (world st))).
Proof.
  revert d st. induction keys as [|key keys IH]; intros d [s w] Hd; cbn in Hd.
  - cbn. now rewrite set_store_same.
  - cbn [Devices.fill_visibility fold_left]. run_monad. rewrite Hd.
    assert (Hf : fill_default d key =
                 if dict_mem key d then d else dict_set d key (JBool false))
      by reflexivity.
    destruct (dict_mem key d) eqn:Em; rewrite Hf; cbn [negb]; run_monad.
    + now rewrite (IH d) by exact Hd.
    + rewrite (IH (dict_set d key (JBool false))).
      * cbn [self world]. now rewrite set_store_twice.
      * cbn. apply lookup_insert_eq.
Qed.

Lemma add_device_loop_run (keys min_reqs acc : list string) :
  Devices.add_device_loop keys min_reqs acc =
    match List.filter (fun attr => negb (str_in attr DEVICE_ATTRIBUTES)) keys with
    | attr :: _ => Raise (InvalidAttribute [attr])
    | [] => Ok (acc ++ List.filter (fun attr => str_in attr min_reqs) keys)
    end.
Proof.
  revert acc. induction keys as [|k keys IH]; intros acc.
  - cbn. now rewrite app_nil_r.
  - cbn [Devices.add_device_loop List.filter].
    destruct (str_in k DEVICE_ATTRIBUTES); cbn [negb]; [|reflexivity].
    rewrite IH.
    destruct (List.filter _ keys); [|reflexivity].
    destruct (str_in k min_reqs); [|reflexivity].
    now rewrite <- app_assoc.
Qed.

(** [add_device] step by step: the fill, the classification, the loop
    over the keys, the count test and the POST. *)
Lemma add_device_run (backend : Backend) (attributes : loc) (d : dict)
    (st : State Devices.t) :
  store (world st) !! attributes = Some d ->
  Devices.add_device backend attributes st =
    let st1 := after_fill attributes d st in
    match Devices._check_device_visibility (filled d) with
    | Raise e => (Raise e, st1)
    | Ok vis =>
        match Devices.add_device_loop (dict_keys (filled d)) (min_reqs_of vis) [] with
        | Raise e => (Raise e, st1)
        | Ok given_min_reqs =>
            if negb (length (min_reqs_of vis) =? length given_min_reqs)%nat
            then (Raise (MissingRequiredAttributes
                           (list_to_set (min_reqs_of vis)
                              ∖ list_to_set given_min_reqs)), st1)
            else
              let r := mkRequest POST (base_url (Devices.super (self st)))
                         devices_path (headers (Devices.super (self st)))
                         (Some (mkEnvelope "device" None (filled d))) in
              let response := backend (sent (world st)) r in
              (if negb (status_code response =? 201)%Z
               then Raise (RequestFailed "add new device" None
                             (status_code response))
               else Ok tt,
               mkState (self st) (log_request r (world st1)))
        end
    end.
Proof.
  intros Hd. unfold Devices.add_device. unfold bind at 1.
  rewrite (fill_visibility_run _ _ d st Hd). fold (filled d).
  fold (after_fill attributes d st). cbv zeta.
  unfold bind at 1. unfold read_dict at 1.
  assert (Hs : store (world (after_fill attributes d st)) !! attributes
               = Some (filled d)) by (cbn; apply lookup_insert_eq).
  rewrite Hs. unfold bind at 1, lift at 1.
  destruct (Devices._check_device_visibility (filled d)) as [vis|e]; [|reflexivity].
  fold (min_reqs_of vis). unfold bind at 1, lift at 1.
  destruct (Devices.add_device_loop _ _ _) as [given|e]; [|reflexivity].
  destruct (negb (length (min_reqs_of vis) =? length given)%nat);
    [reflexivity|].
  run_monad. cbn [core Devices.sub after_fill self world sent set_store].
  destruct (negb _); reflexivity.
Qed.

Lemma add_device_store (backend : Backend) (attributes : loc) (d : dict)
    (st : State Devices.t) :
  store (world st) !! attributes = Some d ->
  store (world (snd (Devices.add_device backend attributes st))) =
    <[attributes := filled d]> (store (world st)).
Proof.
  intros Hd. rewrite (add_device_run backend attributes d st Hd). cbv zeta.
  destruct (Devices._check_device_visibility (filled d)); [|reflexivity].
  destruct (Devices.add_device_loop _ _ _); [|reflexivity].
  destruct (negb (_ =? _)%nat); reflexivity.
Qed.

(** C5: when the caller supplies none of the three visibility flags,
    [add_device] binds all three to false in the caller's mapping and
    then fails with the no-visibility error; no request is sent. *)
Theorem add_device_without_flags_fails (backend : Backend) (attributes : loc)
    (d : dict) (st : State Devices.t) :
  store (world st) !! attributes = Some d ->
  dict_get d "is_private" = None ->
  dict_get d "is_internal" = None ->
  dict_get d "is_public" = None ->
  dict_get (filled d) "is_private" = Some (JBool false) /\
  dict_get (filled d) "is_internal" = Some (JBool false) /\
  dict_get (filled d) "is_public" = Some (JBool false) /\
  Devices.add_device backend attributes st =
    (Raise NoVisibilitySet, after_fill attributes d st) /\
  sent (world (snd (Devices.add_device backend attributes st))) =
    sent (world st).
Proof.
  intros Hd Hpriv Hint Hpub.
  assert (Fpriv : dict_get (filled d) "is_private" = Some (JBool false))
    by (now rewrite filled_get, Hpriv).
  assert (Fint : dict_get (filled d) "is_internal" = Some (JBool false))
    by (now rewrite filled_get, Hint).
  assert (Fpub : dict_get (filled d) "is_public" = Some (JBool false))
    by (now rewrite filled_get, Hpub).
  assert (Hrun : Devices.add_device backend attributes st =
                 (Raise NoVisibilitySet, after_fill attributes d st)).
  { rewrite (add_device_run backend attributes d st Hd). cbv zeta.
    rewrite (check_device_visibility_reads (filled d) _ _ _ false false false
               Fpub Fint Fpriv (reads_bool _) (reads_bool _) (reads_bool _)).
    reflexivity. }
  repeat split; try assumption. now rewrite Hrun.
Qed.

Lemma add_device_without_flags_fails_witness :
  fst (Devices.add_device created_backend 0 (devices_with one_unknown_attribute))
    = Raise NoVisibilitySet /\
  sent (world (snd (Devices.add_device created_backend 0
                      (devices_with one_unknown_attribute)))) = [].
Proof.
  destruct (add_device_without_flags_fails created_backend 0
              one_unknown_attribute (devices_with one_unknown_attribute)
              eq_refl eq_refl eq_refl eq_refl) as (_ & _ & _ & Hrun & Hsent).
  split; [now rewrite Hrun | exact Hsent].
Defined.

(** C10: [add_device] fills the caller's own mapping.  Whether the call
    returns or raises, the dict the caller passed holds afterwards every
    flag that was missing, bound to false, and every key it held before
    with its value. *)
Theorem add_device_fills_callers_mapping (backend : Backend) (attributes : loc)
    (d : dict) (st : State Devices.t) (key : string) :
  store (world st) !! attributes = Some d ->
  In key ["is_private"; "is_internal"; "is_public"] ->
  dict_get d key = None ->
  exists d',
    store (world (snd (Devices.add_device backend attributes st))) !! attributes
      = Some d' /\
    dict_get d' key = Some (JBool false) /\
    (forall k v, dict_get d k = Some v -> dict_get d' k = Some v).
Proof.
  intros Hd Hkey Hmiss. exists (filled d). split; [|split].
  - rewrite (add_device_store backend attributes d st Hd).
    apply lookup_insert_eq.
  - rewrite filled_get, Hmiss.
    apply str_in_In in Hkey. now rewrite Hkey.
  - intros k v Hk. now rewrite filled_get, Hk.
Qed.

Lemma add_device_fills_callers_mapping_witness :
  exists d',
    store (world (snd (Devices.add_device created_backend 0
                         (devices_with public_without_groups)))) !! 0%nat
      = Some d' /\
    dict_get d' "is_private" = Some (JBool false) /\
    (forall k v, dict_get public_without_groups k = Some v ->
                 dict_get d' k = Some v).
Proof.
  apply (add_device_fills_callers_mapping created_backend 0
           public_without_groups (devices_with public_without_groups)
           "is_private" eq_refl).
  - simpl. tauto.
  - reflexivity.
Defined.

(** C2: creating a device from short_name "X", manufacturer_name "Y" and
    is_public true, without group_ids, fails with the missing-attributes
    error listing exactly group_ids and sends no request.  The fill binds
    is_private and is_internal to false, the class is public, the public
    required set is the internal one (which has group_ids), and every
    other required name is a key of the filled mapping. *)
Theorem add_device_public_without_group_ids (backend : Backend)
    (attributes : loc) (st : State Devices.t) :
  store (world st) !! attributes = Some public_without_groups ->
  filled public_without_groups =
    public_without_groups ++
      [("is_private", JBool false); ("is_internal", JBool false)] /\
  Devices._check_device_visibility (filled public_without_groups) = Ok "is_public" /\
  MIN_PUBLIC_DEVICE_ATTRIBUTES = MIN_INTERNAL_DEVICE_ATTRIBUTES /\
  In "group_ids" MIN_INTERNAL_DEVICE_ATTRIBUTES /\
  (forall name, In name MIN_PUBLIC_DEVICE_ATTRIBUTES -> name <> "group_ids" ->
     dict_mem name (filled public_without_groups) = true) /\
  Devices.add_device backend attributes st =
    (Raise (MissingRequiredAttributes {[ "group_ids" ]}),
     after_fill attributes public_without_groups st) /\
  sent (world (snd (Devices.add_device backend attributes st))) = sent (world st).
Proof.
  intros Hd.
  assert (Hrun : Devices.add_device backend attributes st =
    (Raise (MissingRequiredAttributes {[ "group_ids" ]}),
     after_fill attributes public_without_groups st)).
  { rewrite (add_device_run backend attributes _ st Hd). cbv zeta.
    assert (Hv : Devices._check_device_visibility (filled public_without_groups)
                 = Ok "is_public") by reflexivity.
    rewrite Hv.
    assert (Hl : Devices.add_device_loop
                   (dict_keys (filled public_without_groups))
                   (min_reqs_of "is_public") [] =
                 Ok ["short_name"; "manufacturer_name"; "is_public";
                     "is_private"; "is_internal"]) by reflexivity.
    rewrite Hl.
    assert (Hn : negb (length (min_reqs_of "is_public") =?
                       length ["short_name"; "manufacturer_name"; "is_public";
                               "is_private"; "is_internal"])%nat = true)
      by reflexivity.
    rewrite Hn.
    assert (Hm : list_to_set (min_reqs_of "is_public")
                   ∖ list_to_set ["short_name"; "manufacturer_name";
                                   "is_public"; "is_private"; "is_internal"]
                 = ({[ "group_ids" ]} : gset string))
      by (vm_compute; reflexivity).
    now rewrite Hm. }
  split; [reflexivity|]. split; [reflexivity|]. split; [reflexivity|].
  split; [simpl; tauto|]. split.
  - intros name Hin Hne. simpl in Hin.
    repeat (destruct Hin as [<-|Hin]; [try reflexivity; now contradiction Hne|]).
    destruct Hin.
  - split; [exact Hrun | now rewrite Hrun].
Qed.

Lemma add_device_public_without_group_ids_witness :
  fst (Devices.add_device created_backend 0 (devices_with public_without_groups))
    = Raise (MissingRequiredAttributes {[ "group_ids" ]}).
Proof.
  destruct (add_device_public_without_group_ids created_backend 0
              (devices_with public_without_groups) eq_refl)
    as (_ & _ & _ & _ & _ & Hrun & _).
  now rewrite Hrun.
Defined.

(** ** Rejected updates *)

(** An update by name with a key outside the allow-list ends in the
    state its name resolution left: with the error of the resolution if
    that failed, and with the invalid-attribute error otherwise. *)
Lemma update_device_by_name_rejected (backend : Backend) (name : string)
    (attributes : loc) (d : dict) (st : State Devices.t) :
  store (world st) !! attributes = Some d ->
  (0 <? length (offending DEVICE_ATTRIBUTES d))%nat = true ->
  Devices.update_device_by_name backend name attributes st =
    (match fst (Devices.get_device_by_name backend name st) with
     | Ok device =>
         match getitem device "id" with
         | Ok _ => Raise (InvalidAttribute (offending DEVICE_ATTRIBUTES d))
         | Raise e => Raise e
         end
     | Raise e => Raise e
     end,
     snd (Devices.get_device_by_name backend name st)).
Proof.
  intros Hd Hne. unfold Devices.update_device_by_name, bind.
  pose proof (get_device_by_name_world backend name st) as Hw. cbv zeta in Hw.
  destruct (Devices.get_device_by_name backend name st) as [[device|e] st1];
    cbn [fst snd] in *; [|reflexivity].
  destruct Hw as [Hs _]. unfold lift.
  destruct (getitem device "id") as [device_id|e]; [|reflexivity].
  apply (update_device_by_id_invalid backend device_id attributes d st1);
    [now rewrite Hs | exact Hne].
Qed.

Lemma update_site_by_name_rejected (backend : Backend) (name : string)
    (attributes : loc) (d : dict) (st : State Sites.t) :
  store (world st) !! attributes = Some d ->
  (0 <? length (offending SITE_ATTRIBUTES d))%nat = true ->
  Sites.update_site_by_name backend name attributes st =
    (match fst (Sites.get_site_by_name backend name st) with
     | Ok site =>
         match getitem site "id" with
         | Ok _ => Raise (InvalidAttribute (offending SITE_ATTRIBUTES d))
         | Raise e => Raise e
         end
     | Raise e => Raise e
     end,
     snd (Sites.get_site_by_name backend name st)).
Proof.
  intros Hd Hne. unfold Sites.update_site_by_name, bind.
  pose proof (get_site_by_name_world backend name st) as Hw. cbv zeta in Hw.
  destruct (Sites.get_site_by_name backend name st) as [[site|e] st1];
    cbn [fst snd] in *; [|reflexivity].
  destruct Hw as [Hs _]. unfold lift.
  destruct (getitem site "id") as [site_id|e]; [|reflexivity].
  apply (update_site_by_id_invalid backend site_id attributes d st1);
    [now rewrite Hs | exact Hne].
Qed.

(** C8, as the code has it: an update by id whose mapping has a key
    outside the allow-list fails with the invalid-attribute error before
    any network call, the state left as it was.  An update by name
    resolves the name first: it ends in the state the resolution left,
    in which at most GET requests were added and never a PATCH; it
    always raises, with the invalid-attribute error when the resolution
    found an entity with an id, and with the error of the resolution
    otherwise. *)
Theorem update_rejects_invalid_before_patch (backend : Backend)
    (attributes : loc) (d : dict) (key : string) :
  In key (dict_keys d) ->
  (forall (device_id : json) (st : State Devices.t),
     store (world st) !! attributes = Some d ->
     ~ In key DEVICE_ATTRIBUTES ->
     exists names,
       Devices.update_device_by_id backend device_id attributes st =
         (Raise (InvalidAttribute names), st) /\ In key names) /\
  (forall (site_id : json) (st : State Sites.t),
     store (world st) !! attributes = Some d ->
     ~ In key SITE_ATTRIBUTES ->
     exists names,
       Sites.update_site_by_id backend site_id attributes st =
         (Raise (InvalidAttribute names), st) /\ In key names) /\
  (forall (device_name : string) (st : State Devices.t),
     store (world st) !! attributes = Some d ->
     ~ In key DEVICE_ATTRIBUTES ->
     let found := Devices.get_device_by_name backend device_name st in
     let out := Devices.update_device_by_name backend device_name attributes st in
     snd out = snd found /\
     (exists new, sent (world (snd out)) = sent (world st) ++ new /\
                  Forall (fun r => method r = GET) new) /\
     (forall e, fst found = Raise e -> fst out = Raise e) /\
     (forall device, fst found = Ok device ->
        (forall e, getitem device "id" = Raise e -> fst out = Raise e) /\
        (forall device_id, getitem device "id" = Ok device_id ->
           exists names,
             fst out = Raise (InvalidAttribute names) /\ In key names))) /\
  (forall (site_name : string) (st : State Sites.t),
     store (world st) !! attributes = Some d ->
     ~ In key SITE_ATTRIBUTES ->
     let found := Sites.get_site_by_name backend site_name st in
     let out := Sites.update_site_by_name backend site_name attributes st in
     snd out = snd found /\
     (exists new, sent (world (snd out)) = sent (world st) ++ new /\
                  Forall (fun r => method r = GET) new) /\
     (forall e, fst found = Raise e -> fst out = Raise e) /\
     (forall site, fst found = Ok site ->
        (forall e, getitem site "id" = Raise e -> fst out = Raise e) /\
        (forall site_id, getitem site "id" = Ok site_id ->
           exists names,
             fst out = Raise (InvalidAttribute names) /\ In key names))).
Proof.
  intros Hkey. split; [|split; [|split]].
  - intros device_id st Hd Hout.
    exists (offending DEVICE_ATTRIBUTES d). split.
    + apply (update_device_by_id_invalid backend device_id attributes d st Hd).
      now apply (offending_nonempty _ _ key).
    + apply offending_In. tauto.
  - intros site_id st Hd Hout.
    exists (offending SITE_ATTRIBUTES d). split.
    + apply (update_site_by_id_invalid backend site_id attributes d st Hd).
      now apply (offending_nonempty _ _ key).
    + apply offending_In. tauto.
  - intros name st Hd Hout found out. subst found out.
    rewrite (update_device_by_name_rejected backend name attributes d st Hd)
      by now apply (offending_nonempty _ _ key).
    cbn [fst snd]. split; [reflexivity|]. split.
    { apply (get_device_by_name_world backend name st). }
    split.
    + intros e He. now rewrite He.
    + intros device Hf. rewrite Hf. split.
      * intros e He. now rewrite He.
      * intros device_id Hi. rewrite Hi.
        exists (offending DEVICE_ATTRIBUTES d).
        split; [reflexivity | apply offending_In; tauto].
  - intros name st Hd Hout found out. subst found out.
    rewrite (update_site_by_name_rejected backend name attributes d st Hd)
      by now apply (offending_nonempty _ _ key).
    cbn [fst snd]. split; [reflexivity|]. split.
    { apply (get_site_by_name_world backend name st). }
    split.
    + intros e He. now rewrite He.
    + intros site Hf. rewrite Hf. split.
      * intros e He. now rewrite He.
      * intros site_id Hi. rewrite Hi.
        exists (offending SITE_ATTRIBUTES d).
        split; [reflexivity | apply offending_In; tauto].
Qed.

Lemma update_rejects_invalid_before_patch_witness :
  (exists names,
     Devices.update_device_by_id created_backend (JStr "7") 0
       (devices_with one_unknown_attribute) =
       (Raise (InvalidAttribute names), devices_with one_unknown_attribute) /\
     In "not_a_real_attr" names) /\
  (exists names,
     Sites.update_site_by_id created_backend (JStr "7") 0
       (sites_with one_unknown_attribute) =
       (Raise (InvalidAttribute names), sites_with one_unknown_attribute) /\
     In "not_a_real_attr" names) /\
  (exists names,
     fst (Devices.update_device_by_name named_a_backend "A" 0
            (devices_with one_unknown_attribute))
       = Raise (InvalidAttribute names) /\
     In "not_a_real_attr" names) /\
  (exists names,
     fst (Sites.update_site_by_name named_a_backend "A" 0
            (sites_with one_unknown_attribute))
       = Raise (InvalidAttribute names) /\
     In "not_a_real_attr" names) /\
  fst (Devices.update_device_by_name created_backend "A" 0
         (devices_with one_unknown_attribute))
    = Raise (RequestFailed "get devices" None 201).
Proof.
  assert (Hd : ~ In "not_a_real_attr" DEVICE_ATTRIBUTES)
    by (intros Hin; apply str_in_In in Hin; discriminate Hin).
  assert (Hs : ~ In "not_a_real_attr" SITE_ATTRIBUTES)
    by (intros Hin; apply str_in_In in Hin; discriminate Hin).
  destruct (update_rejects_invalid_before_patch created_backend 0
              one_unknown_attribute "not_a_real_attr" (or_introl eq_refl))
    as (Hdev & Hsite & Hdevn & _).
  destruct (update_rejects_invalid_before_patch named_a_backend 0
              one_unknown_attribute "not_a_real_attr" (or_introl eq_refl))
    as (_ & _ & Hdeva & Hsitea).
  split; [|split; [|split; [|split]]].
  - exact (Hdev (JStr "7") (devices_with one_unknown_attribute) eq_refl Hd).
  - exact (Hsite (JStr "7") (sites_with one_unknown_attribute) eq_refl Hs).
  - destruct (Hdeva "A" (devices_with one_unknown_attribute) eq_refl Hd)
      as (_ & _ & _ & Hok).
    exact (proj2 (Hok device_a eq_refl) (JStr "1") eq_refl).
  - destruct (Hsitea "A" (sites_with one_unknown_attribute) eq_refl Hs)
      as (_ & _ & _ & Hok).
    exact (proj2 (Hok site_a eq_refl) (JStr "1") eq_refl).
  - destruct (Hdevn "A" (devices_with one_unknown_attribute) eq_refl Hd)
      as (_ & _ & Herr & _).
    exact (Herr (RequestFailed "get devices" None 201) eq_refl).
Defined.

(** C8 fails for an update by name: with the key "not_a_real_attr" and
    no snapshot held, [update_device_by_name] first sends the GET of the
    collection, and only then raises the invalid-attribute error. *)
Lemma update_by_name_sends_before_rejecting :
  let st := devices_with one_unknown_attribute in
  let out := Devices.update_device_by_name named_a_backend "A" 0 st in
  In "not_a_real_attr" (dict_keys one_unknown_attribute) /\
  ~ In "not_a_real_attr" DEVICE_ATTRIBUTES /\
  fst out = Raise (InvalidAttribute ["not_a_real_attr"]) /\
  sent (world st) = [] /\
  sent (world (snd out))
    = [get_request (Devices.super (self st)) devices_path] /\
  snd out <> st.
Proof.
  cbv zeta. split; [simpl; tauto|]. split.
  { intros Hin. apply str_in_In in Hin. discriminate Hin. }
  split; [vm_compute; reflexivity|]. split; [reflexivity|].
  split; [vm_compute; reflexivity|].
  intros Heq. apply (f_equal (fun st => length (sent (world st)))) in Heq.
  vm_compute in Heq. discriminate Heq.
Qed.

(** ** What the allow-list check reports *)

Lemma add_device_invalid (backend : Backend) (attributes : loc) (d : dict)
    (st : State Devices.t) (vis key : string) (rest : list string) :
  store (world st) !! attributes = Some d ->
  Devices._check_device_visibility (filled d) = Ok vis ->
  offending DEVICE_ATTRIBUTES d = key :: rest ->
  Devices.add_device backend attributes st =
    (Raise (InvalidAttribute [key]), after_fill attributes d st).
Proof.
  intros Hd Hvis Hoff.
  rewrite (add_device_run backend attributes d st Hd). cbv zeta.
  rewrite Hvis, add_device_loop_run.
  fold (offending DEVICE_ATTRIBUTES (filled d)).
  now rewrite filled_offending, Hoff.
Qed.

(** C3, as the code has it: the update operations report every key of
    the mapping outside the allow-list, in the mapping's order; device
    creation, once the visibility is classified, reports the first such
    key only. *)
Theorem allow_list_check_reports (backend : Backend) (attributes : loc)
    (d : dict) :
  (forall key allowed, In key (offending allowed d) <->
                       In key (dict_keys d) /\ ~ In key allowed) /\
  (forall (device_id : json) (st : State Devices.t),
     store (world st) !! attributes = Some d ->
     offending DEVICE_ATTRIBUTES d <> [] ->
     Devices.update_device_by_id backend device_id attributes st =
       (Raise (InvalidAttribute (offending DEVICE_ATTRIBUTES d)), st)) /\
  (forall (site_id : json) (st : State Sites.t),
     store (world st) !! attributes = Some d ->
     offending SITE_ATTRIBUTES d <> [] ->
     Sites.update_site_by_id backend site_id attributes st =
       (Raise (InvalidAttribute (offending SITE_ATTRIBUTES d)), st)) /\
  (forall (st : State Devices.t) (vis key : string) (rest : list string),
     store (world st) !! attributes = Some d ->
     Devices._check_device_visibility (filled d) = Ok vis ->
     offending DEVICE_ATTRIBUTES d = key :: rest ->
     Devices.add_device backend attributes st =
       (Raise (InvalidAttribute [key]), after_fill attributes d st)).
Proof.
  split; [|split; [|split]].
  - intros key allowed. apply offending_In.
  - intros device_id st Hd Hne.
    apply (update_device_by_id_invalid backend device_id attributes d st Hd).
    destruct (offending DEVICE_ATTRIBUTES d); [contradiction | reflexivity].
  - intros site_id st Hd Hne.
    apply (update_site_by_id_invalid backend site_id attributes d st Hd).
    destruct (offending SITE_ATTRIBUTES d); [contradiction | reflexivity].
  - intros st vis key rest. apply add_device_invalid.
Qed.

Lemma allow_list_check_reports_witness :
  Devices.update_device_by_id created_backend (JNum 3) 0
    (devices_with two_unknown_attributes) =
    (Raise (InvalidAttribute ["bad1"; "bad2"]),
     devices_with two_unknown_attributes) /\
  Sites.update_site_by_id created_backend (JNum 3) 0
    (sites_with two_unknown_attributes) =
    (Raise (InvalidAttribute ["bad1"; "bad2"]),
     sites_with two_unknown_attributes) /\
  Devices.add_device created_backend 0 (devices_with two_unknown_attributes) =
    (Raise (InvalidAttribute ["bad1"]),
     after_fill 0 two_unknown_attributes (devices_with two_unknown_attributes)).
Proof.
  destruct (allow_list_check_reports created_backend 0 two_unknown_attributes)
    as (_ & Hdev & Hsite & Hadd).
  split; [|split].
  - apply (Hdev (JNum 3) (devices_with two_unknown_attributes) eq_refl).
    discriminate.
  - apply (Hsite (JNum 3) (sites_with two_unknown_attributes) eq_refl).
    discriminate.
  - apply (Hadd (devices_with two_unknown_attributes) "is_public" "bad1"
             ["bad2"] eq_refl eq_refl eq_refl).
Defined.

(** C3 fails for creation: with two keys outside the allow-list,
    [add_device] reports the first and not the second. *)
Lemma add_device_reports_first_offending_only :
  In "bad2" (dict_keys two_unknown_attributes) /\
  ~ In "bad2" DEVICE_ATTRIBUTES /\
  ~ (exists names,
       fst (Devices.add_device created_backend 0
              (devices_with two_unknown_attributes))
         = Raise (InvalidAttribute names) /\
       In "bad2" names).
Proof.
  split; [simpl; tauto|]. split.
  - intros Hin. apply str_in_In in Hin. discriminate Hin.
  - intros (names & Hrun & Hin).
    rewrite (add_device_invalid created_backend 0 two_unknown_attributes
               (devices_with two_unknown_attributes) "is_public" "bad1"
               ["bad2"] eq_refl eq_refl eq_refl) in Hrun.
    cbn [fst] in Hrun. injection Hrun as <-.
    destruct Hin as [Hin|[]]. discriminate Hin.
Qed.

(** ** Lookups given both an id and a name *)

Lemma get_device_properties_run (backend : Backend) (device_id : json)
    (name : string) (st : State Devices.t) :
  is_None device_id = false ->
  let r := get_request (Devices.super (self st)) (device_path device_id) in
  let st1 := mkState (self st) (log_request r (world st)) in
  Devices.get_device_properties backend device_id (Some name) st =
    match both_given_check "get device" "short_name"
            (backend (sent (world st)) r) name with
    | Raise e => (Raise e, st1)
    | Ok _ => Devices.get_device_properties backend JNull (Some name) st1
    end.
Proof.
  intros Hid. destruct st as [s w]. cbv zeta.
  unfold Devices.get_device_properties. rewrite Hid. cbn [negb is_None].
  unfold Devices.get_device_by_id, both_given_check, name_field.
  unfold bind at 1 2 3 4. unfold http at 1.
  cbn [self world core Devices.sub].
  fold (get_request (Devices.super s) (device_path device_id)).
  destruct (status_code _ =? 200)%Z; cbn [negb]; [|reflexivity].
  unfold lift at 1.
  destruct (getitem (response_json _) "data") as [device|e];
    cbn [res_bind]; [|reflexivity].
  unfold lift at 1.
  destruct (getitem device "attributes") as [attributes|e];
    cbn [res_bind]; [|reflexivity].
  destruct (getitem attributes "short_name") as [short_name|e];
    cbn [res_bind]; [|reflexivity].
  destruct (py_eqb short_name (JStr name)); reflexivity.
Qed.

Lemma get_device_properties_by_name_sent (backend : Backend) (name : string)
    (st : State Devices.t) :
  exists new,
    sent (world (snd (Devices.get_device_properties backend JNull (Some name) st)))
      = sent (world st) ++ new.
Proof.
  unfold Devices.get_device_properties. cbn [negb is_None].
  unfold bind at 1 2 3 4. unfold ret at 1 2.
  pose proof (get_device_by_name_world backend name st) as Hw.
  cbv zeta in Hw. destruct Hw as [_ [new [Hsent _]]].
  unfold bind at 1.
  destruct (Devices.get_device_by_name backend name st)
    as [[device|e] st2]; cbn [snd] in Hsent.
  - unfold lift at 1. destruct (getitem device "id") as [device_id|e].
    + unfold http at 1. cbn [self world].
      destruct (negb _); unfold raise, ret; cbn [snd world sent log_request];
        rewrite Hsent, <- app_assoc; eauto.
    + cbn [snd]. eauto.
  - cbn [snd]. eauto.
Qed.

Lemma get_site_configurations_run (backend : Backend) (site_id : json)
    (name : string) (st : State Sites.t) :
  is_None site_id = false ->
  let r := get_request (Sites.super (self st)) (site_path site_id) in
  let st1 := mkState (self st) (log_request r (world st)) in
  Sites.get_site_configurations backend site_id (Some name) st =
    match both_given_check "get site" "label"
            (backend (sent (world st)) r) name with
    | Raise e => (Raise e, st1)
    | Ok _ => Sites.get_site_configurations backend JNull (Some name) st1
    end.
Proof.
  intros Hid. destruct st as [s w]. cbv zeta.
  unfold Sites.get_site_configurations. rewrite Hid. cbn [negb is_None].
  unfold Sites.get_site_by_id, both_given_check, name_field.
  unfold bind at 1 2 3 4. unfold http at 1.
  cbn [self world core Sites.sub].
  fold (get_request (Sites.super s) (site_path site_id)).
  destruct (status_code _ =? 200)%Z; cbn [negb]; [|reflexivity].
  unfold lift at 1.
  destruct (getitem (response_json _) "data") as [site|e];
    cbn [res_bind]; [|reflexivity].
  unfold lift at 1.
  destruct (getitem site "attributes") as [attributes|e];
    cbn [res_bind]; [|reflexivity].
  destruct (getitem attributes "label") as [label|e];
    cbn [res_bind]; [|reflexivity].
  destruct (py_eqb label (JStr name)); reflexivity.
Qed.

Lemma get_site_configurations_by_name_sent (backend : Backend) (name : string)
    (st : State Sites.t) :
  exists new,
    sent (world (snd (Sites.get_site_configurations backend JNull (Some name) st)))
      = sent (world st) ++ new.
Proof.
  unfold Sites.get_site_configurations. cbn [negb is_None].
  unfold bind at 1 2 3 4. unfold ret at 1 2.
  pose proof (get_site_by_name_world backend name st) as Hw.
  cbv zeta in Hw. destruct Hw as [_ [new [Hsent _]]].
  unfold bind at 1.
  destruct (Sites.get_site_by_name backend name st)
    as [[site|e] st2]; cbn [snd] in Hsent.
  - unfold lift at 1. destruct (getitem site "id") as [site_id|e].
    + unfold http at 1. cbn [self world].
      destruct (negb _); unfold raise, ret; cbn [snd world sent log_request];
        rewrite Hsent, <- app_assoc; eauto.
    + cbn [snd]. eauto.
  - cbn [snd]. eauto.
Qed.

(** The cross-check itself: given both an id and a name,
    [get_device_properties] and [get_site_configurations] first fetch
    the entity by id; when the fetch succeeds and the entity's name field
    (short_name, label) differs from the given name, they raise the
    mismatch error having sent that one request; and they return a
    result only when the name field of the fetched entity equals the
    given name. *)
Theorem both_identifiers_are_cross_checked (backend : Backend) (id : json)
    (name : string) :
  is_None id = false ->
  (forall st : State Devices.t,
     let r := get_request (Devices.super (self st)) (device_path id) in
     let response := backend (sent (world st)) r in
     let out := Devices.get_device_properties backend id (Some name) st in
     (exists rest, sent (world (snd out)) = sent (world st) ++ r :: rest) /\
     (forall found,
        status_code response = 200%Z ->
        name_field "short_name" response = Ok found ->
        py_eqb found (JStr name) = false ->
        out = (Raise IdentifierMismatch,
               mkState (self st) (log_request r (world st)))) /\
     (forall v, fst out = Ok v ->
        exists found, name_field "short_name" response = Ok found /\
                      py_eqb found (JStr name) = true)) /\
  (forall st : State Sites.t,
     let r := get_request (Sites.super (self st)) (site_path id) in
     let response := backend (sent (world st)) r in
     let out := Sites.get_site_configurations backend id (Some name) st in
     (exists rest, sent (world (snd out)) = sent (world st) ++ r :: rest) /\
     (forall found,
        status_code response = 200%Z ->
        name_field "label" response = Ok found ->
        py_eqb found (JStr name) = false ->
        out = (Raise IdentifierMismatch,
               mkState (self st) (log_request r (world st)))) /\
     (forall v, fst out = Ok v ->
        exists found, name_field "label" response = Ok found /\
                      py_eqb found (JStr name) = true)).
Proof.
  intros Hid. split.
  - intros st r response out. subst out.
    rewrite (get_device_properties_run backend id name st Hid). cbv zeta.
    fold r. fold response. unfold both_given_check.
    destruct (get_device_properties_by_name_sent backend name
                (mkState (self st) (log_request r (world st)))) as [new Hnew].
    destruct (status_code response =? 200)%Z eqn:Est.
    2:{ apply Z.eqb_neq in Est. cbn [fst snd world sent log_request].
        split; [now exists []|]. split; [intros; contradiction|discriminate]. }
    destruct (name_field "short_name" response) as [found|e]; cbn [res_bind].
    2:{ cbn [fst snd world sent log_request].
        split; [now exists []|]. split; discriminate. }
    destruct (py_eqb found (JStr name)) eqn:Eq.
    + split; [|split].
      * exists new. rewrite Hnew. cbn [world sent log_request].
        now rewrite <- app_assoc.
      * intros found' _ Hf Hneq. congruence.
      * intros v _. now exists found.
    + cbn [fst snd world sent log_request].
      split; [now exists []|]. split; [reflexivity|discriminate].
  - intros st r response out. subst out.
    rewrite (get_site_configurations_run backend id name st Hid). cbv zeta.
    fold r. fold response. unfold both_given_check.
    destruct (get_site_configurations_by_name_sent backend name
                (mkState (self st) (log_request r (world st)))) as [new Hnew].
    destruct (status_code response =? 200)%Z eqn:Est.
    2:{ apply Z.eqb_neq in Est. cbn [fst snd world sent log_request].
        split; [now exists []|]. split; [intros; contradiction|discriminate]. }
    destruct (name_field "label" response) as [found|e]; cbn [res_bind].
    2:{ cbn [fst snd world sent log_request].
        split; [now exists []|]. split; discriminate. }
    destruct (py_eqb found (JStr name)) eqn:Eq.
    + split; [|split].
      * exists new. rewrite Hnew. cbn [world sent log_request].
        now rewrite <- app_assoc.
      * intros found' _ Hf Hneq. congruence.
      * intros v _. now exists found.
    + cbn [fst snd world sent log_request].
      split; [now exists []|]. split; [reflexivity|discriminate].
Qed.

Lemma both_identifiers_are_cross_checked_witness :
  fst (Devices.get_device_properties named_a_backend (JStr "1") (Some "B")
         (devices_with [])) = Raise IdentifierMismatch /\
  fst (Sites.get_site_configurations named_a_backend (JStr "1") (Some "B")
         (sites_with [])) = Raise IdentifierMismatch /\
  (exists found,
     name_field "short_name" (mkResponse 200 (JObj [("data", device_a)]))
       = Ok found /\ py_eqb found (JStr "A") = true) /\
  (exists found,
     name_field "label" (mkResponse 200 (JObj [("data", site_a)]))
       = Ok found /\ py_eqb found (JStr "A") = true).
Proof.
  destruct (both_identifiers_are_cross_checked named_a_backend (JStr "1") "B"
              eq_refl) as [Hdev Hsite].
  destruct (both_identifiers_are_cross_checked named_a_backend (JStr "1") "A"
              eq_refl) as [Hdev' Hsite'].
  split; [|split; [|split]].
  - destruct (Hdev (devices_with [])) as (_ & Hmis & _).
    now rewrite (Hmis (JStr "A") eq_refl eq_refl eq_refl).
  - destruct (Hsite (sites_with [])) as (_ & Hmis & _).
    now rewrite (Hmis (JStr "A") eq_refl eq_refl eq_refl).
  - destruct (Hdev' (devices_with [])) as (_ & _ & Hok).
    exact (Hok (JObj [("data", JArr [])]) eq_refl).
  - destruct (Hsite' (sites_with [])) as (_ & _ & Hok).
    exact (Hok (JObj [("data", JArr [])]) eq_refl).
Defined.

(** C7: the lookups do prefer one identifier over the other.  With two
    devices (two sites) of ids 1 and 7 that carry the name "A", a lookup
    given the id 7 and the name "A" passes the cross-check, because the
    entity of id 7 is called "A", and then resolves the name anew: its
    last request asks for the properties (configurations) of the entity
    of id 1, the first one of that name in the snapshot, and it returns
    that document without any error. *)
Theorem both_identifiers_prefer_the_name :
  let c := Core.__init__ None None in
  let devices := Devices.get_device_properties twins_backend (JStr "7")
                   (Some "A") (devices_with []) in
  let sites := Sites.get_site_configurations twins_backend (JStr "7")
                 (Some "A") (sites_with []) in
  fst devices = Ok (document_for "device" (JStr "1")) /\
  sent (world (snd devices))
    = [ get_request c (device_path (JStr "7"));
        get_request c devices_path;
        get_request c (device_properties_of (JStr "1")) ] /\
  fst sites = Ok (document_for "site" (JStr "1")) /\
  sent (world (snd sites))
    = [ get_request c (site_path (JStr "7"));
        get_request c sites_path;
        get_request c (site_configurations_path (JStr "1")) ].
Proof.
  cbv zeta. repeat split; vm_compute; reflexivity.
Qed.

(** ** The groups of the user *)

Lemma get_user_groups_loop_filter (groups members acc : list json) :
  (forall group, In group groups -> exists id, getitem group "id" = Ok id) ->
  UserInfo.get_user_groups_loop groups (JArr members) acc =
    Ok (acc ++ List.filter (listed_group members) groups).
Proof.
  revert acc. induction groups as [|group groups IH]; intros acc Hids.
  - cbn. now rewrite app_nil_r.
  - cbn [UserInfo.get_user_groups_loop List.filter].
    destruct (Hids group (or_introl eq_refl)) as [id Hid].
    unfold listed_group at 1. rewrite Hid. cbn [res_bind py_in].
    rewrite IH by (intros g Hg; apply Hids; now right).
    destruct (existsb (py_eqb id) members); [|reflexivity].
    now rewrite <- app_assoc.
Qed.

(** An object built with no key, given or in the environment, holds no
    user information: both accessors printed the warning and returned
    null, and nothing was sent. *)
Lemma user_info_init_without_key (backend : Backend) (key : option string)
    (w : World) :
  api_key_or key (getenv_SENSORS_API_KEY w) = None ->
  UserInfo.__init__ backend key w =
    (Ok (UserInfo.mk (Core.__init__ (getenv_SENSORS_API_KEY w) key) JNull JNull),
     log_line no_key_warning (log_line no_key_warning w)).
Proof.
  intros Hk.
  assert (Hc : api_key (Core.__init__ (getenv_SENSORS_API_KEY w) key) = None)
    by exact Hk.
  unfold UserInfo.__init__.
  revert Hc. generalize (Core.__init__ (getenv_SENSORS_API_KEY w) key).
  intros c Hc.
  unfold UserInfo.get_user_groups, UserInfo.get_user_info,
    UserInfo._check_user_api_key.
  run_monad. cbn. rewrite Hc. cbn. rewrite Hc. reflexivity.
Qed.

Section KeepsSuper.
Context {A B : Type}.

Lemma keeps_ret (a : A) : keeps_super (ret a).
Proof. intros st. reflexivity. Qed.

Lemma keeps_raise (e : exn) : keeps_super (@raise _ A e).
Proof. intros st. reflexivity. Qed.

Lemma keeps_lift (r : res A) : keeps_super (lift r).
Proof. intros st. reflexivity. Qed.

Lemma keeps_bind (c : M UserInfo.t A) (k : A -> M UserInfo.t B) :
  keeps_super c -> (forall a, keeps_super (k a)) -> keeps_super (bind c k).
Proof.
  intros Hc Hk st. unfold bind. specialize (Hc st).
  destruct (c st) as [[a|e] st1]; cbn [snd] in *.
  - now rewrite Hk.
  - exact Hc.
Qed.

Lemma keeps_if (b : bool) (c1 c2 : M UserInfo.t A) :
  keeps_super c1 -> keeps_super c2 -> keeps_super (if b then c1 else c2).
Proof. now destruct b. Qed.
End KeepsSuper.

Lemma keeps_get_self : keeps_super get_self.
Proof. intros st. reflexivity. Qed.

Lemma keeps_print (line : string) : keeps_super (print line).
Proof. intros st. reflexivity. Qed.

Lemma keeps_http (backend : Backend) (m : http_method) (p : path)
    (d : option envelope) : keeps_super (http backend m p d).
Proof. intros st. reflexivity. Qed.

Lemma keeps_set_self (f : UserInfo.t -> UserInfo.t) :
  (forall u, UserInfo.super (f u) = UserInfo.super u) ->
  keeps_super (set_self f).
Proof. intros Hf st. apply Hf. Qed.

Create HintDb keeps.
#[local] Hint Resolve keeps_ret keeps_raise keeps_lift keeps_bind keeps_if
  keeps_get_self keeps_print keeps_http keeps_set_self : keeps.

Lemma keeps_check_user_api_key (verbose : bool) :
  keeps_super (UserInfo._check_user_api_key verbose).
Proof.
  unfold UserInfo._check_user_api_key. apply keeps_bind; [auto with keeps|].
  intros u. destruct (api_key (UserInfo.super u)); auto with keeps.
Qed.

Lemma keeps_get_user_info (backend : Backend) :
  keeps_super (UserInfo.get_user_info backend).
Proof.
  unfold UserInfo.get_user_info.
  apply keeps_bind; [now apply keeps_check_user_api_key|].
  intros has_key. auto 8 with keeps.
Qed.

Lemma keeps_get_user_groups (backend : Backend) :
  keeps_super (UserInfo.get_user_groups backend).
Proof.
  unfold UserInfo.get_user_groups, UserInfo.get_all_groups.
  apply keeps_bind; [auto with keeps|]. intros u.
  apply keeps_bind.
  - apply keeps_if; [|auto with keeps].
    apply keeps_bind; [now apply keeps_check_user_api_key|].
    intros has_key. apply keeps_if; [|auto with keeps].
    apply keeps_bind; [apply keeps_get_user_info|].
    intros info. auto 6 with keeps.
  - intros go_on. auto 12 with keeps.
Qed.

Lemma get_user_groups_keeps_invariant (backend : Backend)
    (st : State UserInfo.t) :
  key_invariant (self st) ->
  key_invariant (self (snd (UserInfo.get_user_groups backend st))).
Proof.
  intros Hinv Hk. rewrite keeps_get_user_groups in Hk.
  specialize (Hinv Hk). destruct st as [u w]. cbn [self] in *.
  unfold UserInfo.get_user_groups, UserInfo._check_user_api_key.
  run_monad. rewrite Hinv. cbn. rewrite Hk. exact Hinv.
Qed.

Lemma add_api_key_keeps_invariant (key : string) (st : State UserInfo.t) :
  key_invariant (self (snd (add_api_key key st))).
Proof. intros Hk. discriminate Hk. Qed.

Lemma user_info_init_invariant (backend : Backend) (key : option string)
    (w w' : World) (u : UserInfo.t) :
  UserInfo.__init__ backend key w = (Ok u, w') -> key_invariant u.
Proof.
  destruct (api_key_or key (getenv_SENSORS_API_KEY w)) as [k|] eqn:Ek.
  - unfold UserInfo.__init__.
    set (self0 := UserInfo.mk _ JNull JNull).
    set (body := bind _ _).
    assert (Hb : keeps_super body).
    { subst body. apply keeps_bind; [apply keeps_get_user_info|]. intros info.
      apply keeps_bind; [auto with keeps|]. intros _.
      apply keeps_bind; [apply keeps_get_user_groups|]. intros groups.
      auto with keeps. }
    specialize (Hb (mkState self0 w)).
    destruct (body (mkState self0 w)) as [[[]|e] st]; intros Hinit;
      inversion Hinit; subst. cbn [snd self] in Hb.
    intros Hk. rewrite Hb in Hk. subst self0. cbn in Hk. congruence.
  - rewrite (user_info_init_without_key backend key w Ek).
    intros Hinit _. now inversion Hinit.
Qed.

(** C9: [get_user_groups] returns the groups, in the backend's order,
    whose id is in the user's membership list; with no API key (and so
    no user information) it prints the warning, sends nothing and
    returns null without raising. *)
Theorem get_user_groups_filters_membership (backend : Backend)
    (st : State UserInfo.t) :
  (api_key (UserInfo.super (self st)) = None ->
   UserInfo.user_info (self st) = JNull ->
   UserInfo.get_user_groups backend st =
     (Ok JNull, mkState (self st) (log_line no_key_warning (world st)))) /\
  (forall groups members : list json,
     let r := get_request (UserInfo.super (self st)) permission_groups_path in
     let response := backend (sent (world st)) r in
     member_list (UserInfo.user_info (self st)) = Ok (JArr members) ->
     status_code response = 200%Z ->
     getitem (response_json response) "data" = Ok (JArr groups) ->
     (forall group, In group groups -> exists id, getitem group "id" = Ok id) ->
     UserInfo.get_user_groups backend st =
       (Ok (JArr (List.filter (listed_group members) groups)),
        mkState (self st) (log_request r (world st)))) /\
  (forall (key : string) (groups members : list json),
     let c := UserInfo.super (self st) in
     let r1 := get_request c user_info_path in
     let info := response_json (backend (sent (world st)) r1) in
     let r2 := get_request c permission_groups_path in
     let response := backend (sent (world st) ++ [r1]) r2 in
     api_key c = Some key ->
     UserInfo.user_info (self st) = JNull ->
     status_code (backend (sent (world st)) r1) = 200%Z ->
     member_list info = Ok (JArr members) ->
     status_code response = 200%Z ->
     getitem (response_json response) "data" = Ok (JArr groups) ->
     (forall group, In group groups -> exists id, getitem group "id" = Ok id) ->
     UserInfo.get_user_groups backend st =
       (Ok (JArr (List.filter (listed_group members) groups)),
        mkState (UserInfo.mk c info (UserInfo.user_groups (self st)))
          (log_request r2 (log_request r1 (world st))))).
Proof.
  destruct st as [u w]. split; [|split].
  - cbn [self world]. intros Hk Hi.
    unfold UserInfo.get_user_groups, UserInfo._check_user_api_key.
    run_monad. rewrite Hi. cbn. rewrite Hk. reflexivity.
  - intros groups members r response Hm Hst Hdata Hids.
    cbn [self world] in *.
    assert (Hn : is_None (UserInfo.user_info u) = false).
    { destruct (UserInfo.user_info u); try reflexivity. discriminate Hm. }
    unfold UserInfo.get_user_groups, UserInfo.get_all_groups.
    run_monad. rewrite Hn. cbn [negb core UserInfo.sub self world].
    fold (get_request (UserInfo.super u) permission_groups_path).
    fold r. fold response. rewrite Hst. cbn [Z.eqb Pos.eqb negb self].
    fold (member_list (UserInfo.user_info u)). rewrite Hm, Hdata.
    cbn [res_bind py_iter].
    now rewrite (get_user_groups_loop_filter groups members [] Hids).
  - intros key groups members c r1 info r2 response Hk Hi Hst1 Hm Hst2 Hdata Hids.
    subst c r1 info r2 response.
    unfold UserInfo.get_user_groups, UserInfo.get_user_info,
      UserInfo.get_all_groups, UserInfo._check_user_api_key.
    unfold get_request, member_list in *.
    run_monad. cbn in *. rewrite Hi. cbn.
    repeat (rewrite ?Hk, ?Hst1, ?Hst2, ?Hm, ?Hdata; cbn).
    now rewrite (get_user_groups_loop_filter groups members [] Hids).
Qed.

Lemma get_user_groups_filters_membership_witness :
  UserInfo.get_user_groups groups_backend (user_with None JNull) =
    (Ok JNull,
     mkState (self (user_with None JNull))
       (log_line no_key_warning (world_with []))) /\
  fst (UserInfo.get_user_groups groups_backend
         (user_with (Some "k") sample_user_info)) =
    Ok (JArr [ JObj [("id", JStr "2"); ("type", JStr "permission_group")];
               JObj [("id", JStr "5"); ("type", JStr "permission_group")] ]) /\
  fst (UserInfo.get_user_groups groups_backend (user_with (Some "k") JNull)) =
    Ok (JArr [ JObj [("id", JStr "2"); ("type", JStr "permission_group")];
               JObj [("id", JStr "5"); ("type", JStr "permission_group")] ]).
Proof.
  assert (Hids : forall group, In group sample_groups ->
                   exists id, getitem group "id" = Ok id).
  { intros group Hg. simpl in Hg.
    destruct Hg as [<-|[<-|[<-|[]]]]; eexists; reflexivity. }
  split; [|split].
  - apply (proj1 (get_user_groups_filters_membership groups_backend
                    (user_with None JNull)) eq_refl eq_refl).
  - now rewrite (proj1 (proj2 (get_user_groups_filters_membership
                                 groups_backend
                                 (user_with (Some "k") sample_user_info)))
                   sample_groups [JStr "2"; JStr "5"]
                   eq_refl eq_refl eq_refl Hids).
  - now rewrite (proj2 (proj2 (get_user_groups_filters_membership
                                 groups_backend (user_with (Some "k") JNull)))
                   "k" sample_groups [JStr "2"; JStr "5"]
                   eq_refl eq_refl eq_refl eq_refl eq_refl eq_refl Hids).
Defined.


(** * Behaviour beyond the specification *)

(** ** Visibility classification: soundness and errors *)

Lemma lower_ci_eqb (s t : string) :
  lower s = lower t -> ci_eqb s t = true.
Proof.
  revert t; induction s as [|a s IH]; intros [|b t]; simpl; try discriminate.
  - reflexivity.
  - intros Hl. injection Hl as Ha Hs. rewrite Ha, Ascii.eqb_refl. now apply IH.
Qed.

Lemma coerce_flag_Ok (key : string) (v : json) (b : bool) :
  Devices.coerce_flag key v = Ok b -> flag_reads v b.
Proof.
  destruct v as [|b'|z|s|xs|kvs]; try (simpl; discriminate).
  - simpl. intros Hb. injection Hb as <-. constructor.
  - unfold Devices.coerce_flag. cbv zeta.
    destruct (str_in (lower s) ["true"; "1"]) eqn:Et.
    + intros Hb. injection Hb as <-. apply reads_true.
      apply str_in_In in Et. simpl in Et.
      destruct Et as [Et|[Et|[]]]; apply orb_true_iff; [left|right];
        apply lower_ci_eqb; now rewrite <- Et.
    + destruct (str_in (lower s) ["false"; "0"]) eqn:Ef; [|discriminate].
      intros Hb. injection Hb as <-. apply reads_false.
      apply str_in_In in Ef. simpl in Ef.
      destruct Ef as [Ef|[Ef|[]]]; apply orb_true_iff; [left|right];
        apply lower_ci_eqb; now rewrite <- Ef.
Qed.

Lemma read_flag_cases (d : dict) (key : string) :
  (exists v b, dict_get d key = Some v /\ flag_reads v b /\
               read_flag d key = Ok b) \/
  (exists e, flag_fault d key e /\ read_flag d key = Raise e).
Proof.
  unfold read_flag, getitem.
  destruct (dict_get d key) as [v|] eqn:Ev; cbn [res_bind].
  2:{ right. eexists. split; [now apply fault_missing | reflexivity]. }
  destruct (Devices.coerce_flag key v) as [b|e] eqn:Ec.
  - left. exists v, b. repeat split. now apply (coerce_flag_Ok key).
  - right. exists e. split; [|reflexivity].
    destruct v as [|b'|z|s|xs|kvs];
      try (simpl in Ec; discriminate);
      try (simpl in Ec; injection Ec as <-;
           apply (fault_type d key _ Ev); discriminate).
    assert (He : e = InvalidAttributeValue key s).
    { unfold Devices.coerce_flag in Ec. cbv zeta in Ec.
      destruct (str_in (lower s) ["true"; "1"]); [discriminate|].
      destruct (str_in (lower s) ["false"; "0"]); [discriminate|].
      now injection Ec as <-. }
    subst e. apply (fault_value d key s Ev).
    intros b Hr. apply (coerce_flag_reads key) in Hr.
    rewrite Hr in Ec. discriminate.
Qed.

Lemma visibility_loop_cons (key : string) (rest : list string) (d : dict)
    (acc : list string) :
  Devices.visibility_loop (key :: rest) d acc =
    let? b := read_flag d key in
    Devices.visibility_loop rest d (if b then acc ++ [key] else acc).
Proof.
  unfold read_flag. cbn [Devices.visibility_loop].
  now destruct (getitem (JObj d) key).
Qed.

Lemma check_device_visibility_unrolled (d : dict) :
  Devices._check_device_visibility d =
    let? b_public := read_flag d "is_public" in
    let? b_internal := read_flag d "is_internal" in
    let? b_private := read_flag d "is_private" in
    match true_flags b_public b_internal b_private with
    | [] => Raise NoVisibilitySet
    | [key] => Ok key
    | keys => Raise (ConflictingVisibility keys)
    end.
Proof.
  unfold Devices._check_device_visibility. rewrite visibility_loop_cons.
  destruct (read_flag d "is_public") as [b1|]; cbn [res_bind]; [|reflexivity].
  rewrite visibility_loop_cons.
  destruct (read_flag d "is_internal") as [b2|]; cbn [res_bind]; [|reflexivity].
  rewrite visibility_loop_cons.
  destruct (read_flag d "is_private") as [b3|]; cbn [res_bind]; [|reflexivity].
  destruct b1, b2, b3; reflexivity.
Qed.

(** X1: a key returned by [_check_device_visibility] is sound: the
    mapping holds all three flags with admissible values, and the
    returned key is the only one of them that reads as true. *)
Theorem check_device_visibility_sound (d : dict) (key : string) :
  Devices._check_device_visibility d = Ok key ->
  exists v_public v_internal v_private b_public b_internal b_private,
    dict_get d "is_public" = Some v_public /\
    dict_get d "is_internal" = Some v_internal /\
    dict_get d "is_private" = Some v_private /\
    flag_reads v_public b_public /\
    flag_reads v_internal b_internal /\
    flag_reads v_private b_private /\
    true_flags b_public b_internal b_private = [key].
Proof.
  rewrite check_device_visibility_unrolled.
  destruct (read_flag_cases d "is_public")
    as [(v1 & b1 & G1 & R1 & E1)|(e & _ & E1)]; rewrite E1; cbn [res_bind];
    [|discriminate].
  destruct (read_flag_cases d "is_internal")
    as [(v2 & b2 & G2 & R2 & E2)|(e & _ & E2)]; rewrite E2; cbn [res_bind];
    [|discriminate].
  destruct (read_flag_cases d "is_private")
    as [(v3 & b3 & G3 & R3 & E3)|(e & _ & E3)]; rewrite E3; cbn [res_bind];
    [|discriminate].
  intros Hk. exists v1, v2, v3, b1, b2, b3. repeat (split; [assumption|]).
  destruct b1, b2, b3; cbn in *; congruence.
Qed.

Lemma check_device_visibility_sound_witness :
  exists v_public v_internal v_private b_public b_internal b_private,
    dict_get (filled public_without_groups) "is_public" = Some v_public /\
    dict_get (filled public_without_groups) "is_internal" = Some v_internal /\
    dict_get (filled public_without_groups) "is_private" = Some v_private /\
    flag_reads v_public b_public /\
    flag_reads v_internal b_internal /\
    flag_reads v_private b_private /\
    true_flags b_public b_internal b_private = ["is_public"].
Proof.
  exact (check_device_visibility_sound (filled public_without_groups)
           "is_public" eq_refl).
Defined.

(** X2: every error of [_check_device_visibility] has its cause in the
    mapping.  The flags are examined in the order is_public, is_internal,
    is_private, and the first one that is missing (KeyError), a string
    that is no boolean word (ValueError) or neither string nor boolean
    (TypeError) decides the error; with three admissible flags the only
    errors are no true flag and several true flags.  No other error is
    raised. *)
Theorem check_device_visibility_errors (d : dict) (e : exn) :
  Devices._check_device_visibility d = Raise e ->
  flag_fault d "is_public" e \/
  (flag_fine d "is_public" /\ flag_fault d "is_internal" e) \/
  (flag_fine d "is_public" /\ flag_fine d "is_internal" /\
   flag_fault d "is_private" e) \/
  (exists v_public v_internal v_private b_public b_internal b_private,
     dict_get d "is_public" = Some v_public /\
     dict_get d "is_internal" = Some v_internal /\
     dict_get d "is_private" = Some v_private /\
     flag_reads v_public b_public /\
     flag_reads v_internal b_internal /\
     flag_reads v_private b_private /\
     ((true_flags b_public b_internal b_private = [] /\ e = NoVisibilitySet) \/
      (2 <= length (true_flags b_public b_internal b_private) /\
       e = ConflictingVisibility (true_flags b_public b_internal b_private)))).
Proof.
  rewrite check_device_visibility_unrolled.
  destruct (read_flag_cases d "is_public")
    as [(v1 & b1 & G1 & R1 & E1)|(e1 & F1 & E1)]; rewrite E1; cbn [res_bind].
  2:{ intros He. injection He as <-. now left. }
  destruct (read_flag_cases d "is_internal")
    as [(v2 & b2 & G2 & R2 & E2)|(e2 & F2 & E2)]; rewrite E2; cbn [res_bind].
  2:{ intros He. injection He as <-. right; left. split; [|assumption].
      now exists v1, b1. }
  destruct (read_flag_cases d "is_private")
    as [(v3 & b3 & G3 & R3 & E3)|(e3 & F3 & E3)]; rewrite E3; cbn [res_bind].
  2:{ intros He. injection He as <-. right; right; left.
      split; [now exists v1, b1|]. split; [now exists v2, b2|assumption]. }
  intros He. right; right; right.
  exists v1, v2, v3, b1, b2, b3. repeat (split; [assumption|]).
  destruct b1, b2, b3; cbn in *; try discriminate;
    injection He as <-; (left; split; [reflexivity|reflexivity]) ||
                        (right; split; [lia|reflexivity]).
Qed.

Lemma check_device_visibility_errors_witness :
  flag_fault one_unknown_attribute "is_public" (PyKeyError "is_public") \/
  (flag_fine one_unknown_attribute "is_public" /\
   flag_fault one_unknown_attribute "is_internal" (PyKeyError "is_public")) \/
  (flag_fine one_unknown_attribute "is_public" /\
   flag_fine one_unknown_attribute "is_internal" /\
   flag_fault one_unknown_attribute "is_private" (PyKeyError "is_public")) \/
  (exists v_public v_internal v_private b_public b_internal b_private,
     dict_get one_unknown_attribute "is_public" = Some v_public /\
     dict_get one_unknown_attribute "is_internal" = Some v_internal /\
     dict_get one_unknown_attribute "is_private" = Some v_private /\
     flag_reads v_public b_public /\
     flag_reads v_internal b_internal /\
     flag_reads v_private b_private /\
     ((true_flags b_public b_internal b_private = [] /\
       PyKeyError "is_public" = NoVisibilitySet) \/
      (2 <= length (true_flags b_public b_internal b_private) /\
       PyKeyError "is_public"
         = ConflictingVisibility (true_flags b_public b_internal b_private)))).
Proof.
  exact (check_device_visibility_errors one_unknown_attribute
           (PyKeyError "is_public") eq_refl).
Defined.

(** ** Device creation: the fill, the required names, the POST *)

Lemma dict_mem_In (key : string) (d : dict) :
  dict_mem key d = true <-> In key (dict_keys d).
Proof.
  unfold dict_mem. induction d as [|[k v] d IH]; simpl.
  - split; [discriminate | tauto].
  - destruct (String.eqb k key) eqn:E.
    + apply String.eqb_eq in E. tauto.
    + apply String.eqb_neq in E. rewrite IH. tauto.
Qed.

Lemma dict_mem_false (key : string) (d : dict) :
  dict_mem key d = false <-> dict_get d key = None.
Proof. unfold dict_mem. destruct (dict_get d key); split; congruence. Qed.

Lemma fill_default_keys (d : dict) (key : string) :
  dict_keys (fill_default d key) =
    dict_keys d ++ (if dict_mem key d then [] else [key]).
Proof.
  unfold fill_default. destruct (dict_mem key d) eqn:E.
  - now rewrite app_nil_r.
  - apply dict_mem_false in E. rewrite (dict_keys_set_absent _ _ _ E).
    unfold dict_keys. now rewrite map_app.
Qed.

Lemma fill_default_mem (d : dict) (key key' : string) :
  dict_mem key' (fill_default d key) = dict_mem key' d || String.eqb key key'.
Proof.
  unfold dict_mem at 1 2. rewrite fill_default_get.
  destruct (dict_get d key'); [reflexivity|].
  now destruct (String.eqb key key').
Qed.

Lemma filled_keys (d : dict) :
  dict_keys (filled d) = dict_keys d ++ missing_flags d.
Proof.
  unfold filled, missing_flags. cbn [fold_left List.filter].
  rewrite !fill_default_keys, !fill_default_mem.
  change (String.eqb "is_private" "is_internal") with false.
  change (String.eqb "is_private" "is_public") with false.
  change (String.eqb "is_internal" "is_public") with false.
  rewrite !orb_false_r, <- !app_assoc.
  destruct (dict_mem "is_private" d), (dict_mem "is_internal" d),
    (dict_mem "is_public" d); reflexivity.
Qed.

Lemma filled_NoDup (d : dict) :
  NoDup (dict_keys d) -> NoDup (dict_keys (filled d)).
Proof.
  intros Hd. rewrite filled_keys. apply NoDup_app. split; [exact Hd|]. split.
  - intros key Hk Hm. unfold missing_flags in Hm.
    apply list_elem_of_In, filter_In in Hm. destruct Hm as [_ Hm].
    apply negb_true_iff in Hm.
    apply list_elem_of_In, dict_mem_In in Hk. congruence.
  - unfold missing_flags. cbn [List.filter].
    destruct (dict_mem "is_private" d), (dict_mem "is_internal" d),
      (dict_mem "is_public" d); cbn [negb];
      apply (bool_decide_unpack _); vm_compute; exact I.
Qed.

Lemma filled_idempotent (d : dict) : filled (filled d) = filled d.
Proof.
  assert (Hm : forall key, In key ["is_private"; "is_internal"; "is_public"] ->
                 dict_mem key (filled d) = true).
  { intros key Hk. unfold dict_mem. rewrite filled_get.
    destruct (dict_get d key); [reflexivity|].
    apply str_in_In in Hk. now rewrite Hk. }
  unfold filled at 1. cbn [fold_left]. unfold fill_default.
  rewrite (Hm "is_private"), (Hm "is_internal"), (Hm "is_public");
    simpl; tauto.
Qed.

Lemma NoDup_list_filter {A} (f : A -> bool) (l : list A) :
  NoDup l -> NoDup (List.filter f l).
Proof.
  induction 1 as [|x l Hx Hl IH]; simpl; [constructor|].
  destruct (f x); [|exact IH]. constructor; [|exact IH].
  intros Hin. apply Hx. apply list_elem_of_In in Hin.
  apply filter_In in Hin. now apply list_elem_of_In.
Qed.

Lemma min_reqs_NoDup (vis : string) : NoDup (min_reqs_of vis).
Proof.
  unfold min_reqs_of.
  destruct (String.eqb vis "is_private"); [|destruct (String.eqb vis "is_internal")];
    apply (bool_decide_unpack _); vm_compute; exact I.
Qed.

Lemma given_reqs_In (d : dict) (vis name : string) :
  In name (given_reqs d vis) <->
  In name (min_reqs_of vis) /\ dict_mem name (filled d) = true.
Proof.
  unfold given_reqs. rewrite filter_In, str_in_In, dict_mem_In. tauto.
Qed.

(** The count test of [add_device] passes exactly when every required
    name is a key. *)
Lemma required_count (d : dict) (vis : string) :
  NoDup (dict_keys d) ->
  (length (min_reqs_of vis) =? length (given_reqs d vis))%nat = true <->
  (forall name, In name (min_reqs_of vis) -> dict_mem name (filled d) = true).
Proof.
  intros Hd.
  assert (Hg : NoDup (given_reqs d vis))
    by (apply NoDup_list_filter, filled_NoDup, Hd).
  assert (Hsub : given_reqs d vis ⊆+ min_reqs_of vis).
  { apply NoDup_submseteq; [exact Hg|].
    intros x Hx. apply list_elem_of_In. apply list_elem_of_In in Hx.
    now apply given_reqs_In in Hx. }
  rewrite Nat.eqb_eq. split.
  - intros Hlen name Hname.
    assert (Hp : given_reqs d vis ≡ₚ min_reqs_of vis)
      by (apply submseteq_length_Permutation; [exact Hsub | lia]).
    assert (Hin : In name (given_reqs d vis)).
    { apply list_elem_of_In. rewrite Hp. now apply list_elem_of_In. }
    now apply given_reqs_In in Hin.
  - intros Hall.
    assert (Hsup : min_reqs_of vis ⊆+ given_reqs d vis).
    { apply NoDup_submseteq; [apply min_reqs_NoDup|].
      intros x Hx. apply list_elem_of_In. apply list_elem_of_In in Hx.
      apply given_reqs_In. auto. }
    apply submseteq_length in Hsub. apply submseteq_length in Hsup. lia.
Qed.

(** [add_device] once the classification and the allow-list check have
    passed: the count test, then the POST. *)
Lemma add_device_checked (backend : Backend) (attributes : loc) (d : dict)
    (st : State Devices.t) (vis : string) :
  store (world st) !! attributes = Some d ->
  Devices._check_device_visibility (filled d) = Ok vis ->
  offending DEVICE_ATTRIBUTES d = [] ->
  Devices.add_device backend attributes st =
    let st1 := after_fill attributes d st in
    if negb (length (min_reqs_of vis) =? length (given_reqs d vis))%nat
    then (Raise (MissingRequiredAttributes
                   (list_to_set (min_reqs_of vis)
                      ∖ list_to_set (given_reqs d vis))), st1)
    else
      let r := create_request (Devices.super (self st)) d in
      let response := backend (sent (world st)) r in
      (if negb (status_code response =? 201)%Z
       then Raise (RequestFailed "add new device" None (status_code response))
       else Ok tt,
       mkState (self st) (log_request r (world st1))).
Proof.
  intros Hd Hvis Hoff.
  rewrite (add_device_run backend attributes d st Hd). cbv zeta.
  rewrite Hvis, add_device_loop_run.
  fold (offending DEVICE_ATTRIBUTES (filled d)).
  rewrite filled_offending, Hoff, app_nil_l.
  reflexivity.
Qed.

(** X3: the fill of [add_device] appends the missing flags to the
    caller's mapping in the order is_private, is_internal, is_public,
    after the keys the caller supplied, which keep their positions; the
    keys stay distinct; and a second [add_device] on the same mapping
    leaves it as the first one left it. *)
Theorem add_device_fill_order (backend : Backend) (attributes : loc)
    (d : dict) (st : State Devices.t) :
  store (world st) !! attributes = Some d ->
  NoDup (dict_keys d) ->
  let st1 := snd (Devices.add_device backend attributes st) in
  exists d1,
    store (world st1) !! attributes = Some d1 /\
    dict_keys d1 = dict_keys d ++ missing_flags d /\
    NoDup (dict_keys d1) /\
    store (world (snd (Devices.add_device backend attributes st1)))
      = store (world st1).
Proof.
  intros Hd Hnd st1. exists (filled d).
  assert (H1 : store (world st1) !! attributes = Some (filled d)).
  { subst st1. rewrite (add_device_store backend attributes d st Hd).
    apply lookup_insert_eq. }
  split; [exact H1|]. split; [apply filled_keys|].
  split; [now apply filled_NoDup|].
  rewrite (add_device_store backend attributes (filled d) st1 H1).
  rewrite filled_idempotent. now apply insert_id.
Qed.

Lemma add_device_fill_order_witness :
  exists d1,
    store (world (snd (Devices.add_device created_backend 0
                         (devices_with public_without_groups)))) !! 0%nat
      = Some d1 /\
    dict_keys d1 = ["short_name"; "manufacturer_name"; "is_public";
                    "is_private"; "is_internal"].
Proof.
  destruct (add_device_fill_order created_backend 0 public_without_groups
              (devices_with public_without_groups) eq_refl)
    as (d1 & Hd1 & Hk & _).
  - apply (bool_decide_unpack _). vm_compute. exact I.
  - exists d1. split; [exact Hd1 | exact Hk].
Defined.

(** X4: when the flags classify and every key is allowed but required
    names of the class are not keys of the filled mapping, [add_device]
    raises the missing-attributes error carrying exactly the required
    names that are not keys, and sends nothing. *)
Theorem add_device_missing_required (backend : Backend) (attributes : loc)
    (d : dict) (st : State Devices.t) (vis name : string) :
  store (world st) !! attributes = Some d ->
  NoDup (dict_keys d) ->
  Devices._check_device_visibility (filled d) = Ok vis ->
  offending DEVICE_ATTRIBUTES d = [] ->
  In name (min_reqs_of vis) ->
  dict_mem name (filled d) = false ->
  exists missing : gset string,
    Devices.add_device backend attributes st =
      (Raise (MissingRequiredAttributes missing), after_fill attributes d st) /\
    (forall a, a ∈ missing <->
               In a (min_reqs_of vis) /\ dict_mem a (filled d) = false) /\
    sent (world (after_fill attributes d st)) = sent (world st).
Proof.
  intros Hd Hnd Hvis Hoff Hname Hmiss.
  rewrite (add_device_checked backend attributes d st vis Hd Hvis Hoff).
  cbv zeta.
  destruct (length (min_reqs_of vis) =? length (given_reqs d vis))%nat eqn:El.
  { pose proof (proj1 (required_count d vis Hnd) El name Hname) as Hin.
    rewrite Hin in Hmiss. discriminate. }
  cbn [negb]. eexists. split; [reflexivity|]. split; [|reflexivity].
  intros a. rewrite elem_of_difference, !elem_of_list_to_set, !list_elem_of_In.
  rewrite given_reqs_In.
  destruct (dict_mem a (filled d)); intuition congruence.
Qed.

Lemma add_device_missing_required_witness :
  exists missing : gset string,
    fst (Devices.add_device created_backend 0
           (devices_with public_without_groups))
      = Raise (MissingRequiredAttributes missing) /\
    "group_ids" ∈ missing /\ "short_name" ∉ missing.
Proof.
  destruct (add_device_missing_required created_backend 0
              public_without_groups (devices_with public_without_groups)
              "is_public" "group_ids" eq_refl)
    as (missing & Hrun & Hin & _);
    try reflexivity.
  - apply (bool_decide_unpack _). vm_compute. exact I.
  - simpl. tauto.
  - exists missing. split; [now rewrite Hrun|]. split.
    + apply Hin. split; [simpl; tauto | reflexivity].
    + intros Hs. apply Hin in Hs. destruct Hs as [_ Hs]. discriminate Hs.
Defined.

(** Every way [add_device] ends before the POST leaves the request log
    as it was and raises. *)
Lemma add_device_unchecked (backend : Backend) (attributes : loc) (d : dict)
    (st : State Devices.t) :
  store (world st) !! attributes = Some d ->
  NoDup (dict_keys d) ->
  (forall vis, ~ creatable d vis) ->
  exists e, Devices.add_device backend attributes st =
              (Raise e, after_fill attributes d st).
Proof.
  intros Hd Hnd Hno.
  destruct (Devices._check_device_visibility (filled d)) as [vis|e] eqn:Hvis.
  2:{ exists e. rewrite (add_device_run backend attributes d st Hd). cbv zeta.
      now rewrite Hvis. }
  destruct (offending DEVICE_ATTRIBUTES d) as [|key rest] eqn:Hoff.
  2:{ eexists. apply (add_device_invalid backend attributes d st vis key rest);
        assumption. }
  rewrite (add_device_checked backend attributes d st vis Hd Hvis Hoff).
  cbv zeta.
  destruct (length (min_reqs_of vis) =? length (given_reqs d vis))%nat eqn:El.
  - exfalso. apply (Hno vis). repeat split; try assumption.
    now apply (required_count d vis Hnd).
  - cbn [negb]. eauto.
Qed.

(** X5: [add_device] sends a request only for a mapping that passed
    every check.  If the flags classify, every key is allowed and every
    required name of the class is a key, it sends the one POST to
    /devices whose attributes are the filled mapping, and returns
    normally exactly when the status is 201.  Otherwise it raises and
    the request log is as before. *)
Theorem add_device_posts_checked_mappings (backend : Backend)
    (attributes : loc) (d : dict) (st : State Devices.t) :
  store (world st) !! attributes = Some d ->
  NoDup (dict_keys d) ->
  let r := create_request (Devices.super (self st)) d in
  let status := status_code (backend (sent (world st)) r) in
  let out := Devices.add_device backend attributes st in
  (forall vis, creatable d vis ->
     sent (world (snd out)) = sent (world st) ++ [r] /\
     fst out = if (status =? 201)%Z then Ok tt
               else Raise (RequestFailed "add new device" None status)) /\
  ((forall vis, ~ creatable d vis) ->
     sent (world (snd out)) = sent (world st) /\ exists e, fst out = Raise e).
Proof.
  intros Hd Hnd r status out. split.
  - intros vis (Hvis & Hoff & Hall). subst out.
    rewrite (add_device_checked backend attributes d st vis Hd Hvis Hoff).
    cbv zeta.
    rewrite (proj2 (required_count d vis Hnd) Hall). cbn [negb fst snd].
    fold r. fold status. split; [reflexivity|].
    now destruct (status =? 201)%Z.
  - intros Hno. subst out.
    destruct (add_device_unchecked backend attributes d st Hd Hnd Hno)
      as [e He].
    rewrite He. split; [reflexivity | now exists e].
Qed.

Lemma complete_public_device_creatable :
  creatable complete_public_device "is_public".
Proof.
  split; [reflexivity|]. split; [reflexivity|].
  intros name Hin. simpl in Hin.
  repeat (destruct Hin as [<-|Hin]; [reflexivity|]). destruct Hin.
Defined.

Lemma add_device_posts_checked_mappings_witness :
  (sent (world (snd (Devices.add_device created_backend 0
                       (devices_with complete_public_device))))
     = [create_request (Devices.super (self (devices_with [])))
          complete_public_device] /\
   fst (Devices.add_device created_backend 0
          (devices_with complete_public_device)) = Ok tt) /\
  sent (world (snd (Devices.add_device created_backend 0
                      (devices_with one_unknown_attribute)))) = [].
Proof.
  split.
  - refine (proj1 (add_device_posts_checked_mappings created_backend 0
                     complete_public_device
                     (devices_with complete_public_device) eq_refl _)
              "is_public" complete_public_device_creatable).
    apply (bool_decide_unpack _). vm_compute. exact I.
  - refine (proj1 (proj2 (add_device_posts_checked_mappings created_backend 0
                            one_unknown_attribute
                            (devices_with one_unknown_attribute) eq_refl _) _)).
    + apply (bool_decide_unpack _). vm_compute. exact I.
    + intros vis (Hvis & _). discriminate Hvis.
Defined.

(** ** The constants *)

(** X6: the attribute lists are consistent: no list names an attribute
    twice, and every attribute required for creation, of any class, is
    in the device allow-list, so the two checks of [add_device] can both
    pass. *)
Theorem required_attributes_are_allowed (name : string) :
  NoDup DEVICE_ATTRIBUTES /\ NoDup SITE_ATTRIBUTES /\
  NoDup MIN_PUBLIC_DEVICE_ATTRIBUTES /\
  (In name MIN_PUBLIC_DEVICE_ATTRIBUTES -> In name DEVICE_ATTRIBUTES).
Proof.
  split; [|split; [|split]];
    try (apply (bool_decide_unpack _); vm_compute; exact I).
  intros Hin. apply str_in_In. simpl in Hin.
  repeat (destruct Hin as [<-|Hin]; [reflexivity|]). destruct Hin.
Qed.

Lemma required_attributes_are_allowed_witness :
  In "group_ids" DEVICE_ATTRIBUTES.
Proof.
  apply (proj2 (proj2 (proj2 (required_attributes_are_allowed "group_ids")))).
  simpl. tauto.
Defined.

(** ** Updates by id *)

(** X7: [update_device_by_id] and [update_site_by_id] send a request
    exactly when every key of the mapping is in the allow-list (the
    empty mapping included): then it is the one PATCH to the entity's
    path, carrying the id and the mapping as it is, and the call returns
    normally if the status is 200 and raises the request failure
    otherwise.  The receiver and the caller's mapping are never
    changed. *)
Theorem update_by_id_outcome (backend : Backend) (id : json)
    (attributes : loc) (d : dict) :
  (forall st : State Devices.t,
     store (world st) !! attributes = Some d ->
     let r := update_request (Devices.super (self st)) "device"
                (device_path id) id d in
     let status := status_code (backend (sent (world st)) r) in
     Devices.update_device_by_id backend id attributes st =
       match offending DEVICE_ATTRIBUTES d with
       | [] => (if (status =? 200)%Z then Ok tt
                else Raise (RequestFailed "update device" (Some id) status),
                mkState (self st) (log_request r (world st)))
       | names => (Raise (InvalidAttribute names), st)
       end) /\
  (forall st : State Sites.t,
     store (world st) !! attributes = Some d ->
     let r := update_request (Sites.super (self st)) "site"
                (site_path id) id d in
     let status := status_code (backend (sent (world st)) r) in
     Sites.update_site_by_id backend id attributes st =
       match offending SITE_ATTRIBUTES d with
       | [] => (if (status =? 200)%Z then Ok tt
                else Raise (RequestFailed "update site" (Some id) status),
                mkState (self st) (log_request r (world st)))
       | names => (Raise (InvalidAttribute names), st)
       end).
Proof.
  split; intros [s w] Hd r status; cbn [self world] in *.
  - unfold Devices.update_device_by_id. run_monad. rewrite Hd.
    rewrite invalid_attrs_loop_filter, app_nil_l.
    fold (offending DEVICE_ATTRIBUTES d).
    destruct (offending DEVICE_ATTRIBUTES d) as [|k ks]; [|reflexivity].
    subst r status. unfold update_request. cbn.
    now destruct (_ =? 200)%Z.
  - unfold Sites.update_site_by_id. run_monad. rewrite Hd.
    rewrite invalid_attrs_loop_filter, app_nil_l.
    fold (offending SITE_ATTRIBUTES d).
    destruct (offending SITE_ATTRIBUTES d) as [|k ks]; [|reflexivity].
    subst r status. unfold update_request. cbn.
    now destruct (_ =? 200)%Z.
Qed.

Lemma update_by_id_outcome_witness :
  Devices.update_device_by_id named_a_backend (JStr "1") 0
    (devices_with complete_public_device)
    = (Ok tt,
       mkState (self (devices_with complete_public_device))
         (log_request
            (update_request (Devices.super (self (devices_with []))) "device"
               (device_path (JStr "1")) (JStr "1") complete_public_device)
            (world_with complete_public_device))) /\
  Sites.update_site_by_id named_a_backend (JStr "1") 0
    (sites_with complete_public_device)
    = (Raise (InvalidAttribute ["short_name"; "manufacturer_name"]),
       sites_with complete_public_device).
Proof.
  split.
  - exact (proj1 (update_by_id_outcome named_a_backend (JStr "1") 0
                    complete_public_device)
             (devices_with complete_public_device) eq_refl).
  - exact (proj2 (update_by_id_outcome named_a_backend (JStr "1") 0
                    complete_public_device)
             (sites_with complete_public_device) eq_refl).
Defined.

(** ** Lookups by name *)








Lemma snapshot_lookup_not_None (snapshot : json) (name : string) (v : json) :
  device_in_snapshot snapshot name = Ok v \/
  site_in_snapshot snapshot name = Ok v ->
  is_None snapshot = false.
Proof. destruct snapshot; try reflexivity. intros [H|H]; discriminate H. Qed.

Lemma get_device_by_name_cached (backend : Backend) (name : string)
    (st : State Devices.t) :
  is_None (Devices.all_device_data (self st)) = false ->
  Devices.get_device_by_name backend name st =
    (device_in_snapshot (Devices.all_device_data (self st)) name, st).
Proof.
  intros Hn. destruct st as [s w]. unfold Devices.get_device_by_name.
  run_monad. cbn [self] in Hn. now rewrite Hn.
Qed.

Lemma get_device_by_name_fetch (backend : Backend) (name : string)
    (st : State Devices.t) :
  is_None (Devices.all_device_data (self st)) = true ->
  let r := get_request (Devices.super (self st)) devices_path in
  let response := backend (sent (world st)) r in
  Devices.get_device_by_name backend name st =
    if (status_code response =? 200)%Z
    then (device_in_snapshot (response_json response) name,
          mkState (Devices.mk (Devices.super (self st)) (response_json response))
            (log_request r (world st)))
    else (Raise (RequestFailed "get devices" None (status_code response)),
          mkState (self st) (log_request r (world st))).
Proof.
  intros Hn. destruct st as [s w]. cbv zeta.
  unfold Devices.get_device_by_name, Devices.get_devices.
  run_monad. cbn [self] in Hn. rewrite Hn. unfold get_request. cbn.
  now destruct (_ =? 200)%Z.
Qed.

Lemma get_site_by_name_cached (backend : Backend) (name : string)
    (st : State Sites.t) :
  is_None (Sites.all_site_data (self st)) = false ->
  Sites.get_site_by_name backend name st =
    (site_in_snapshot (Sites.all_site_data (self st)) name, st).
Proof.
  intros Hn. destruct st as [s w]. unfold Sites.get_site_by_name.
  run_monad. cbn [self] in Hn. now rewrite Hn.
Qed.

Lemma get_site_by_name_fetch (backend : Backend) (name : string)
    (st : State Sites.t) :
  is_None (Sites.all_site_data (self st)) = true ->
  let r := get_request (Sites.super (self st)) sites_path in
  let response := backend (sent (world st)) r in
  Sites.get_site_by_name backend name st =
    if (status_code response =? 200)%Z
    then (site_in_snapshot (response_json response) name,
          mkState (Sites.mk (Sites.super (self st)) (response_json response))
            (log_request r (world st)))
    else (Raise (RequestFailed "get sites" None (status_code response)),
          mkState (self st) (log_request r (world st))).
Proof.
  intros Hn. destruct st as [s w]. cbv zeta.
  unfold Sites.get_site_by_name, Sites.get_sites.
  run_monad. cbn [self] in Hn. rewrite Hn. unfold get_request. cbn.
  now destruct (_ =? 200)%Z.
Qed.

(** X9: once a by-name lookup has returned an entity, the object holds
    a snapshot, and repeating the lookup returns the same entity from it
    without any request, whatever the backend would answer now. *)
Theorem by_name_lookup_memoizes (backend backend' : Backend) (name : string) :
  (forall (st : State Devices.t) (device : json),
     fst (Devices.get_device_by_name backend name st) = Ok device ->
     let st1 := snd (Devices.get_device_by_name backend name st) in
     is_None (Devices.all_device_data (self st1)) = false /\
     Devices.get_device_by_name backend' name st1 = (Ok device, st1)) /\
  (forall (st : State Sites.t) (site : json),
     fst (Sites.get_site_by_name backend name st) = Ok site ->
     let st1 := snd (Sites.get_site_by_name backend name st) in
     is_None (Sites.all_site_data (self st1)) = false /\
     Sites.get_site_by_name backend' name st1 = (Ok site, st1)).
Proof.
  split.
  - intros st device. 
    destruct (is_None (Devices.all_device_data (self st))) eqn:Hn.
    + rewrite (get_device_by_name_fetch backend name st Hn). cbv zeta.
      destruct (_ =? 200)%Z; [|discriminate]. cbn [fst snd]. intros Hf.
      assert (Hn1 : is_None (response_json
                     (backend (sent (world st))
                        (get_request (Devices.super (self st)) devices_path)))
                    = false)
        by (apply (snapshot_lookup_not_None _ name device); now left).
      split; [exact Hn1|].
      rewrite get_device_by_name_cached by exact Hn1.
      cbn [self Devices.all_device_data]. now rewrite Hf.
    + rewrite (get_device_by_name_cached backend name st Hn).
      cbn [fst snd]. intros Hf. split; [exact Hn|].
      rewrite get_device_by_name_cached by exact Hn. now rewrite Hf.
  - intros st site.
    destruct (is_None (Sites.all_site_data (self st))) eqn:Hn.
    + rewrite (get_site_by_name_fetch backend name st Hn). cbv zeta.
      destruct (_ =? 200)%Z; [|discriminate]. cbn [fst snd]. intros Hf.
      assert (Hn1 : is_None (response_json
                     (backend (sent (world st))
                        (get_request (Sites.super (self st)) sites_path)))
                    = false)
        by (apply (snapshot_lookup_not_None _ name site); now right).
      split; [exact Hn1|].
      rewrite get_site_by_name_cached by exact Hn1.
      cbn [self Sites.all_site_data]. now rewrite Hf.
    + rewrite (get_site_by_name_cached backend name st Hn).
      cbn [fst snd]. intros Hf. split; [exact Hn|].
      rewrite get_site_by_name_cached by exact Hn. now rewrite Hf.
Qed.

Lemma by_name_lookup_memoizes_witness :
  Devices.get_device_by_name created_backend "A"
    (snd (Devices.get_device_by_name named_a_backend "A" (devices_with [])))
  = (Ok device_a,
     snd (Devices.get_device_by_name named_a_backend "A" (devices_with []))).
Proof.
  exact (proj2 (proj1 (by_name_lookup_memoizes named_a_backend created_backend
                         "A") (devices_with []) device_a eq_refl)).
Defined.

(** X10: a by-name lookup with a snapshot held searches it, sends
    nothing and changes nothing; with none it sends the one GET of the
    collection, and keeps the body as the snapshot when the status is
    200, but raises the request failure and keeps no snapshot when it is
    not. *)
Theorem by_name_lookup_fetches_at_most_once (backend : Backend)
    (name : string) :
  (forall st : State Devices.t,
     let r := get_request (Devices.super (self st)) devices_path in
     let response := backend (sent (world st)) r in
     Devices.get_device_by_name backend name st =
       if is_None (Devices.all_device_data (self st)) then
         if (status_code response =? 200)%Z
         then (device_in_snapshot (response_json response) name,
               mkState (Devices.mk (Devices.super (self st))
                          (response_json response))
                 (log_request r (world st)))
         else (Raise (RequestFailed "get devices" None (status_code response)),
               mkState (self st) (log_request r (world st)))
       else (device_in_snapshot (Devices.all_device_data (self st)) name, st)) /\
  (forall st : State Sites.t,
     let r := get_request (Sites.super (self st)) sites_path in
     let response := backend (sent (world st)) r in
     Sites.get_site_by_name backend name st =
       if is_None (Sites.all_site_data (self st)) then
         if (status_code response =? 200)%Z
         then (site_in_snapshot (response_json response) name,
               mkState (Sites.mk (Sites.super (self st))
                          (response_json response))
                 (log_request r (world st)))
         else (Raise (RequestFailed "get sites" None (status_code response)),
               mkState (self st) (log_request r (world st)))
       else (site_in_snapshot (Sites.all_site_data (self st)) name, st)).
Proof.
  split; intros st r response.
  - destruct (is_None (Devices.all_device_data (self st))) eqn:Hn.
    + apply (get_device_by_name_fetch backend name st Hn).
    + apply (get_device_by_name_cached backend name st Hn).
  - destruct (is_None (Sites.all_site_data (self st))) eqn:Hn.
    + apply (get_site_by_name_fetch backend name st Hn).
    + apply (get_site_by_name_cached backend name st Hn).
Qed.

(** ** Device properties and site configurations *)

(** X11: with neither an id nor a name the two lookups raise the
    missing-identifier error and send nothing.  With an id alone they
    send the one GET for that id, never touch the snapshot, and return
    the body when the status is 200 or raise the request failure. *)
Theorem lookup_by_id_alone (backend : Backend) (id : json) :
  (forall st : State Devices.t,
     let r := get_request (Devices.super (self st)) (device_properties_of id) in
     let response := backend (sent (world st)) r in
     Devices.get_device_properties backend id None st =
       if is_None id then (Raise MissingIdentifier, st)
       else (if (status_code response =? 200)%Z
             then Ok (response_json response)
             else Raise (RequestFailed "get device properties" None
                           (status_code response)),
             mkState (self st) (log_request r (world st)))) /\
  (forall st : State Sites.t,
     let r := get_request (Sites.super (self st))
                (site_configurations_path id) in
     let response := backend (sent (world st)) r in
     Sites.get_site_configurations backend id None st =
       if is_None id then (Raise MissingIdentifier, st)
       else (if (status_code response =? 200)%Z
             then Ok (response_json response)
             else Raise (RequestFailed "get configuration" None
                           (status_code response)),
             mkState (self st) (log_request r (world st)))).
Proof.
  split; intros [s w] r response; subst r response.
  - unfold Devices.get_device_properties, get_request. run_monad.
    destruct (is_None id); [reflexivity|]. cbn.
    now destruct (_ =? 200)%Z.
  - unfold Sites.get_site_configurations, get_request. run_monad.
    destruct (is_None id); [reflexivity|]. cbn.
    now destruct (_ =? 200)%Z.
Qed.

Lemma get_device_properties_by_name (backend : Backend) (name : string)
    (st st2 : State Devices.t) (device id' : json) :
  Devices.get_device_by_name backend name st = (Ok device, st2) ->
  getitem device "id" = Ok id' ->
  let r := get_request (Devices.super (self st2)) (device_properties_of id') in
  let response := backend (sent (world st2)) r in
  Devices.get_device_properties backend JNull (Some name) st =
    (if (status_code response =? 200)%Z then Ok (response_json response)
     else Raise (RequestFailed "get device properties" None
                   (status_code response)),
     mkState (self st2) (log_request r (world st2))).
Proof.
  intros Hget Hid r response. subst r response.
  unfold Devices.get_device_properties. cbn [is_None negb].
  unfold bind at 1 2 3 4. unfold ret at 1 2. unfold bind at 1.
  rewrite Hget. unfold lift at 1. rewrite Hid.
  unfold http, get_request. cbn.
  now destruct (_ =? 200)%Z.
Qed.

Lemma get_site_configurations_by_name (backend : Backend) (name : string)
    (st st2 : State Sites.t) (site id' : json) :
  Sites.get_site_by_name backend name st = (Ok site, st2) ->
  getitem site "id" = Ok id' ->
  let r := get_request (Sites.super (self st2)) (site_configurations_path id') in
  let response := backend (sent (world st2)) r in
  Sites.get_site_configurations backend JNull (Some name) st =
    (if (status_code response =? 200)%Z then Ok (response_json response)
     else Raise (RequestFailed "get configuration" None
                   (status_code response)),
     mkState (self st2) (log_request r (world st2))).
Proof.
  intros Hget Hid r response. subst r response.
  unfold Sites.get_site_configurations. cbn [is_None negb].
  unfold bind at 1 2 3 4. unfold ret at 1 2. unfold bind at 1.
  rewrite Hget. unfold lift at 1. rewrite Hid.
  unfold http, get_request. cbn.
  now destruct (_ =? 200)%Z.
Qed.

(** X12: when an id and a name are both given and the entity fetched by
    id carries that name, the lookup continues by name: the final GET is
    for the id of the entity the by-name search returns, and the id the
    caller gave is used for the check only. *)
Theorem agreeing_identifiers_continue_by_name (backend : Backend)
    (id id' : json) (name : string) :
  is_None id = false ->
  (forall (st st2 : State Devices.t) (device : json),
     let r1 := get_request (Devices.super (self st)) (device_path id) in
     let st1 := mkState (self st) (log_request r1 (world st)) in
     both_given_check "get device" "short_name"
       (backend (sent (world st)) r1) name = Ok tt ->
     Devices.get_device_by_name backend name st1 = (Ok device, st2) ->
     getitem device "id" = Ok id' ->
     let r2 := get_request (Devices.super (self st2))
                 (device_properties_of id') in
     let response := backend (sent (world st2)) r2 in
     Devices.get_device_properties backend id (Some name) st =
       (if (status_code response =? 200)%Z then Ok (response_json response)
        else Raise (RequestFailed "get device properties" None
                      (status_code response)),
        mkState (self st2) (log_request r2 (world st2)))) /\
  (forall (st st2 : State Sites.t) (site : json),
     let r1 := get_request (Sites.super (self st)) (site_path id) in
     let st1 := mkState (self st) (log_request r1 (world st)) in
     both_given_check "get site" "label"
       (backend (sent (world st)) r1) name = Ok tt ->
     Sites.get_site_by_name backend name st1 = (Ok site, st2) ->
     getitem site "id" = Ok id' ->
     let r2 := get_request (Sites.super (self st2))
                 (site_configurations_path id') in
     let response := backend (sent (world st2)) r2 in
     Sites.get_site_configurations backend id (Some name) st =
       (if (status_code response =? 200)%Z then Ok (response_json response)
        else Raise (RequestFailed "get configuration" None
                      (status_code response)),
        mkState (self st2) (log_request r2 (world st2)))).
Proof.
  intros Hid. split.
  - intros st st2 device r1 st1 Hcheck Hget Hdev r2 response.
    rewrite (get_device_properties_run backend id name st Hid). cbv zeta.
    fold r1. rewrite Hcheck. fold st1.
    apply (get_device_properties_by_name backend name st1 st2 device id' Hget Hdev).
  - intros st st2 site r1 st1 Hcheck Hget Hsite r2 response.
    rewrite (get_site_configurations_run backend id name st Hid). cbv zeta.
    fold r1. rewrite Hcheck. fold st1.
    apply (get_site_configurations_by_name backend name st1 st2 site id' Hget Hsite).
Qed.

Lemma agreeing_identifiers_continue_by_name_witness :
  sent (world (snd (Devices.get_device_properties named_a_backend (JStr "7")
                      (Some "A") (devices_with []))))
    = [ get_request (Devices.super (self (devices_with [])))
          (device_path (JStr "7"));
        get_request (Devices.super (self (devices_with []))) devices_path;
        get_request (Devices.super (self (devices_with [])))
          (device_properties_of (JStr "1")) ].
Proof.
  rewrite (proj1 (agreeing_identifiers_continue_by_name named_a_backend
                    (JStr "7") (JStr "1") "A" eq_refl)
             (devices_with []) _ device_a eq_refl eq_refl eq_refl).
  reflexivity.
Defined.

(** ** The user object *)

Lemma get_user_info_self (backend : Backend) (st : State UserInfo.t) :
  self (snd (UserInfo.get_user_info backend st)) = self st.
Proof.
  destruct st as [u w].
  unfold UserInfo.get_user_info, UserInfo._check_user_api_key.
  run_monad. destruct (api_key (UserInfo.super u)); cbn; [|reflexivity].
  now destruct (_ =? 200)%Z.
Qed.

Lemma get_all_groups_self (backend : Backend) (st : State UserInfo.t) :
  self (snd (UserInfo.get_all_groups backend st)) = self st.
Proof.
  destruct st as [u w]. unfold UserInfo.get_all_groups. run_monad. cbn.
  now destruct (_ =? 200)%Z.
Qed.

Lemma check_user_api_key_self (verbose : bool) (st : State UserInfo.t) :
  self (snd (UserInfo._check_user_api_key verbose st)) = self st.
Proof.
  destruct st as [u w]. unfold UserInfo._check_user_api_key. run_monad.
  destruct (api_key (UserInfo.super u)); [reflexivity|].
  now destruct verbose.
Qed.

Lemma after_call_invariant (backend : Backend) (c : user_call)
    (st : State UserInfo.t) :
  key_invariant (self st) -> key_invariant (self (after_call backend c st)).
Proof.
  intros Hinv. destruct c as [key|verbose| | |]; cbn [after_call].
  - apply add_api_key_keeps_invariant.
  - now rewrite check_user_api_key_self.
  - now rewrite get_user_info_self.
  - now rewrite get_all_groups_self.
  - now apply get_user_groups_keeps_invariant.
Qed.

(** X13: an object of [UserInfo], from its construction on and through
    any calls of its methods, holds no user information while it has no
    key; so on every such object without a key [get_user_groups] prints
    the warning, sends nothing and returns None. *)
Theorem user_without_key_has_no_info (backend : Backend)
    (st : State UserInfo.t) :
  user_reachable backend st ->
  key_invariant (self st) /\
  (api_key (UserInfo.super (self st)) = None ->
   UserInfo.get_user_groups backend st =
     (Ok JNull, mkState (self st) (log_line no_key_warning (world st)))).
Proof.
  intros Hr.
  assert (Hinv : key_invariant (self st)).
  { induction Hr as [key w w' u Hinit|c st Hr IH|st w Hr IH].
    - apply (user_info_init_invariant backend key w w' u Hinit).
    - now apply after_call_invariant.
    - exact IH. }
  split; [exact Hinv|]. intros Hk. specialize (Hinv Hk).
  destruct st as [u w]. cbn [self world] in *.
  unfold UserInfo.get_user_groups, UserInfo._check_user_api_key.
  run_monad. rewrite Hinv. cbn. rewrite Hk. reflexivity.
Qed.

Lemma user_without_key_has_no_info_witness :
  UserInfo.get_user_groups groups_backend
    (after_call groups_backend call_get_all_groups keyless_user)
  = (Ok JNull,
     mkState (self keyless_user)
       (log_line no_key_warning
          (world (after_call groups_backend call_get_all_groups
                    keyless_user)))).
Proof.
  assert (Hr : user_reachable groups_backend
                 (after_call groups_backend call_get_all_groups keyless_user)).
  { apply reach_call.
    apply (reach_init groups_backend None (world_with [])). reflexivity. }
  exact (proj2 (user_without_key_has_no_info groups_backend
                  (after_call groups_backend call_get_all_groups keyless_user)
                  Hr) eq_refl).
Defined.

(** X14: the constructor of [UserInfo] with a key first requests the
    user information.  If that request fails the constructor raises, no
    object is built and the groups are never requested.  If it succeeds
    with a body that is not null, the permission groups are requested
    next: the constructor raises if that request fails, and if it
    succeeds, the user information holds a membership list and every
    group has an id, the new object holds the user information and, as
    its groups, the permission groups whose id is in the list.  If the
    first request succeeds with a null body, the user information is
    requested a second time before anything else. *)
Theorem user_info_init_with_key (backend : Backend) (key : option string)
    (w : World) (k : string) :
  api_key_or key (getenv_SENSORS_API_KEY w) = Some k ->
  let c := Core.__init__ (getenv_SENSORS_API_KEY w) key in
  let r1 := get_request c user_info_path in
  let response1 := backend (sent w) r1 in
  let info := response_json response1 in
  let r2 := get_request c permission_groups_path in
  let response2 := backend (sent w ++ [r1]) r2 in
  (status_code response1 <> 200%Z ->
   UserInfo.__init__ backend key w =
     (Raise (RequestFailed "get user info" None (status_code response1)),
      log_request r1 w)) /\
  (status_code response1 = 200%Z -> is_None info = false ->
   status_code response2 <> 200%Z ->
   UserInfo.__init__ backend key w =
     (Raise (RequestFailed "get groups" None (status_code response2)),
      log_request r2 (log_request r1 w))) /\
  (forall groups members : list json,
     status_code response1 = 200%Z ->
     member_list info = Ok (JArr members) ->
     status_code response2 = 200%Z ->
     getitem (response_json response2) "data" = Ok (JArr groups) ->
     (forall group, In group groups -> exists id, getitem group "id" = Ok id) ->
     UserInfo.__init__ backend key w =
       (Ok (UserInfo.mk c info
              (JArr (List.filter (listed_group members) groups))),
        log_request r2 (log_request r1 w))) /\
  (status_code response1 = 200%Z -> is_None info = true ->
   exists rest,
     sent (snd (UserInfo.__init__ backend key w)) = sent w ++ r1 :: r1 :: rest).
Proof.
  intros Hk c r1 response1 info r2 response2.
  assert (Hc : api_key c = Some k) by exact Hk.
  subst r1 response1 info r2 response2. revert Hc.
  unfold UserInfo.__init__. fold c. generalize c. clear c Hk. intros c Hc.
  unfold UserInfo.get_user_groups, UserInfo.get_user_info,
    UserInfo.get_all_groups, UserInfo._check_user_api_key.
  unfold get_request, member_list.
  split; [|split; [|split]].
  - intros Hst. apply Z.eqb_neq in Hst.
    run_monad. cbn. rewrite Hc. cbn. rewrite Hst. reflexivity.
  - intros Hst1 Hn Hst2. apply Z.eqb_neq in Hst2.
    run_monad. cbn in *.
    repeat (rewrite ?Hc, ?Hst1, ?Hn, ?Hst2; cbn). reflexivity.
  - intros groups members Hst1 Hm Hst2 Hdata Hids.
    assert (Hn : is_None (response_json
                   (backend (sent w)
                      (mkRequest GET (base_url c) user_info_path (headers c)
                         None))) = false).
    { destruct (response_json _); try reflexivity. discriminate Hm. }
    run_monad. cbn in *.
    repeat (rewrite ?Hc, ?Hst1, ?Hn, ?Hst2, ?Hm, ?Hdata; cbn).
    now rewrite (get_user_groups_loop_filter groups members [] Hids).
  - intros Hst1 Hn. run_monad. cbn in *.
    repeat (rewrite ?Hc, ?Hst1, ?Hn; cbn).
    destruct (_ =? 200)%Z; cbn.
    2:{ exists []. now rewrite <- app_assoc. }
    destruct (_ =? 200)%Z; cbn.
    2:{ eexists [_]. now rewrite <- !app_assoc. }
    repeat match goal with
           | |- context [match res_bind ?a ?b with _ => _ end] =>
               destruct (res_bind a b); cbn
           | |- context [match UserInfo.get_user_groups_loop ?a ?b ?c
                         with _ => _ end] =>
               destruct (UserInfo.get_user_groups_loop a b c); cbn
           end;
      eexists [_]; now rewrite <- !app_assoc.
Qed.

Lemma user_info_init_with_key_witness :
  UserInfo.__init__ groups_backend (Some "k") (world_with []) =
    (Ok (UserInfo.mk (Core.__init__ None (Some "k")) sample_user_info
           (JArr [ JObj [("id", JStr "2"); ("type", JStr "permission_group")];
                   JObj [("id", JStr "5"); ("type", JStr "permission_group")] ])),
     log_request (get_request (Core.__init__ None (Some "k"))
                    permission_groups_path)
       (log_request (get_request (Core.__init__ None (Some "k")) user_info_path)
          (world_with []))) /\
  fst (UserInfo.__init__ created_backend (Some "k") (world_with [])) =
    Raise (RequestFailed "get user info" None 201) /\
  fst (UserInfo.__init__ info_only_backend (Some "k") (world_with [])) =
    Raise (RequestFailed "get groups" None 404) /\
  (exists rest,
     sent (snd (UserInfo.__init__ null_backend (Some "k") (world_with [])))
       = [] ++ get_request (Core.__init__ None (Some "k")) user_info_path
            :: get_request (Core.__init__ None (Some "k")) user_info_path
            :: rest).
Proof.
  assert (Hids : forall group, In group sample_groups ->
                   exists id, getitem group "id" = Ok id).
  { intros group Hg. simpl in Hg.
    destruct Hg as [<-|[<-|[<-|[]]]]; eexists; reflexivity. }
  split; [|split; [|split]].
  - exact (proj1 (proj2 (proj2 (user_info_init_with_key groups_backend
                                  (Some "k") (world_with []) "k" eq_refl)))
             sample_groups [JStr "2"; JStr "5"]
             eq_refl eq_refl eq_refl eq_refl Hids).
  - rewrite (proj1 (user_info_init_with_key created_backend (Some "k")
                      (world_with []) "k" eq_refl)).
    + reflexivity.
    + discriminate.
  - rewrite (proj1 (proj2 (user_info_init_with_key info_only_backend
                             (Some "k") (world_with []) "k" eq_refl))
               eq_refl eq_refl).
    + reflexivity.
    + discriminate.
  - exact (proj2 (proj2 (proj2 (user_info_init_with_key null_backend
                                  (Some "k") (world_with []) "k" eq_refl)))
             eq_refl eq_refl).
Defined.

(** ** What the methods leave alone *)

Section Orderly.
Context {Self : Type} `{CoreApiSub Self}.
Context (lines_ok : string -> Prop) (writable : loc -> Prop).

Lemma world_step_refl (c : CoreApi) (w : World) :
  world_step c lines_ok writable w w.
Proof.
  repeat split; try (exists []; rewrite app_nil_r; split; [reflexivity|constructor]).
Qed.

Lemma world_step_trans (c : CoreApi) (w1 w2 w3 : World) :
  world_step c lines_ok writable w1 w2 ->
  world_step c lines_ok writable w2 w3 ->
  world_step c lines_ok writable w1 w3.
Proof.
  intros ((n1 & S1 & F1) & (l1 & O1 & L1) & E1 & H1)
         ((n2 & S2 & F2) & (l2 & O2 & L2) & E2 & H2).
  repeat split.
  - exists (n1 ++ n2). rewrite S2, S1, <- app_assoc. split; [reflexivity|].
    apply Forall_app. now split.
  - exists (l1 ++ l2). rewrite O2, O1, <- app_assoc. split; [reflexivity|].
    apply Forall_app. now split.
  - congruence.
  - intros l Hl. now rewrite H2, H1.
Qed.

Lemma orderly_still {A} (m : M Self A) :
  (forall st, snd (m st) = st) -> orderly lines_ok writable m.
Proof.
  intros Hm st. rewrite Hm. split; [reflexivity | apply world_step_refl].
Qed.

Lemma orderly_ret {A} (a : A) : orderly lines_ok writable (ret a).
Proof. now apply orderly_still. Qed.

Lemma orderly_raise {A} (e : exn) : orderly lines_ok writable (@raise _ A e).
Proof. now apply orderly_still. Qed.

Lemma orderly_lift {A} (r : res A) : orderly lines_ok writable (lift r).
Proof. now apply orderly_still. Qed.

Lemma orderly_get_self : orderly lines_ok writable get_self.
Proof. now apply orderly_still. Qed.

Lemma orderly_read_dict (l : loc) : orderly lines_ok writable (read_dict l).
Proof.
  apply orderly_still. intros st. unfold read_dict.
  now destruct (store (world st) !! l).
Qed.

Lemma orderly_bind {A B} (m : M Self A) (k : A -> M Self B) :
  orderly lines_ok writable m ->
  (forall a, orderly lines_ok writable (k a)) ->
  orderly lines_ok writable (bind m k).
Proof.
  intros Hm Hk st. unfold bind. destruct (Hm st) as [Hc Hw].
  destruct (m st) as [[a|e] st1]; cbn [snd] in *; [|now split].
  destruct (Hk a st1) as [Hc' Hw']. rewrite Hc in Hw'. split.
  - congruence.
  - now apply (world_step_trans _ _ (world st1)).
Qed.

Lemma orderly_if {A} (b : bool) (m1 m2 : M Self A) :
  orderly lines_ok writable m1 -> orderly lines_ok writable m2 ->
  orderly lines_ok writable (if b then m1 else m2).
Proof. now destruct b. Qed.

Lemma orderly_http (backend : Backend) (m : http_method) (p : path)
    (d : option envelope) : orderly lines_ok writable (http backend m p d).
Proof.
  intros st. unfold http. cbn [snd self world]. split; [reflexivity|].
  repeat split; try (exists []; rewrite app_nil_r; split; [reflexivity|constructor]).
  eexists. split; [reflexivity|]. repeat constructor.
Qed.

Lemma orderly_print (line : string) :
  lines_ok line -> orderly lines_ok writable (print line).
Proof.
  intros Hl st. cbn. split; [reflexivity|].
  repeat split; try (exists []; rewrite app_nil_r; split; [reflexivity|constructor]).
  exists [line]. split; [reflexivity|]. now repeat constructor.
Qed.


Lemma orderly_set_self (f : Self -> Self) :
  (forall s, core (f s) = core s) -> orderly lines_ok writable (set_self f).
Proof.
  intros Hf st. cbn. split; [apply Hf | apply world_step_refl].
Qed.
End Orderly.

Create HintDb orderly.
#[local] Hint Resolve orderly_ret orderly_raise orderly_lift orderly_get_self
  orderly_read_dict orderly_http orderly_set_self orderly_if : orderly.

Ltac orderly_step :=
  first
    [ solve [auto with orderly]
    | progress cbv zeta
    | apply orderly_bind; [|intros ?]
    | match goal with
      | |- orderly _ _ (if ?b then _ else _) => destruct b
      | |- orderly _ _ (match ?x with _ => _ end) => destruct x
      end ].

Section DevicesOrderly.
Context (backend : Backend) (lines_ok : string -> Prop)
  (writable : loc -> Prop).








End DevicesOrderly.

Section SitesOrderly.
Context (backend : Backend) (lines_ok : string -> Prop)
  (writable : loc -> Prop).

Lemma orderly_get_sites :
  orderly lines_ok writable (Sites.get_sites backend).
Proof. unfold Sites.get_sites. repeat orderly_step. Qed.

Lemma orderly_get_site_by_id (site_id : json) :
  orderly lines_ok writable (Sites.get_site_by_id backend site_id).
Proof. unfold Sites.get_site_by_id. repeat orderly_step. Qed.

Lemma orderly_get_site_by_name (name : string) :
  orderly lines_ok writable (Sites.get_site_by_name backend name).
Proof.
  pose proof orderly_get_sites.
  unfold Sites.get_site_by_name. repeat orderly_step.
Qed.

Lemma orderly_get_site_configurations (site_id : json) (name : option string) :
  orderly lines_ok writable
    (Sites.get_site_configurations backend site_id name).
Proof.
  pose proof orderly_get_site_by_id. pose proof orderly_get_site_by_name.
  unfold Sites.get_site_configurations. repeat orderly_step.
Qed.

Lemma orderly_update_site_by_id (site_id : json) (attributes : loc) :
  orderly lines_ok writable
    (Sites.update_site_by_id backend site_id attributes).
Proof. unfold Sites.update_site_by_id. repeat orderly_step. Qed.

Lemma orderly_update_site_by_name (name : string) (attributes : loc) :
  orderly lines_ok writable
    (Sites.update_site_by_name backend name attributes).
Proof.
  pose proof orderly_get_site_by_name.
  pose proof orderly_update_site_by_id.
  unfold Sites.update_site_by_name. repeat orderly_step.
Qed.
End SitesOrderly.

Section UserOrderly.
Context (backend : Backend) (writable : loc -> Prop).

Lemma orderly_check_user_api_key (verbose : bool) :
  orderly (eq no_key_warning) writable (UserInfo._check_user_api_key verbose).
Proof.
  pose proof (@orderly_print UserInfo.t _ (eq no_key_warning) writable
                no_key_warning eq_refl) as Hp.
  unfold UserInfo._check_user_api_key. repeat orderly_step.
Qed.

Lemma orderly_get_user_info :
  orderly (eq no_key_warning) writable (UserInfo.get_user_info backend).
Proof.
  pose proof orderly_check_user_api_key.
  unfold UserInfo.get_user_info. repeat orderly_step.
Qed.

Lemma orderly_get_all_groups :
  orderly (eq no_key_warning) writable (UserInfo.get_all_groups backend).
Proof. unfold UserInfo.get_all_groups. repeat orderly_step. Qed.

Lemma orderly_get_user_groups :
  orderly (eq no_key_warning) writable (UserInfo.get_user_groups backend).
Proof.
  pose proof orderly_check_user_api_key. pose proof orderly_get_user_info.
  pose proof orderly_get_all_groups.
  unfold UserInfo.get_user_groups. repeat orderly_step.
Qed.
End UserOrderly.


(** X16: the methods [get_sites], [get_site_by_id], [get_site_by_name],
    [get_site_configurations], [update_site_by_id] and
    [update_site_by_name] of [Sites] leave the key, the base URL and the
    headers of the object as they are; every request they send goes to
    that base URL with those headers, and the log of requests only
    grows; they print nothing and write to no dict of the caller. *)
Theorem sites_methods_orderly (backend : Backend) (id : json)
    (name : string) (name' : option string) (attributes : loc) :
  orderly nothing nothing (Sites.get_sites backend) /\
  orderly nothing nothing (Sites.get_site_by_id backend id) /\
  orderly nothing nothing (Sites.get_site_by_name backend name) /\
  orderly nothing nothing (Sites.get_site_configurations backend id name') /\
  orderly nothing nothing (Sites.update_site_by_id backend id attributes) /\
  orderly nothing nothing (Sites.update_site_by_name backend name attributes).
Proof.
  repeat match goal with |- _ /\ _ => split end.
  - apply orderly_get_sites.
  - apply orderly_get_site_by_id.
  - apply orderly_get_site_by_name.
  - apply orderly_get_site_configurations.
  - apply orderly_update_site_by_id.
  - apply orderly_update_site_by_name.
Qed.

(** X17: the accessors of [UserInfo] keep the key, the base URL and the
    headers of the object; every request they send goes to that base URL
    with those headers; the only line they ever print is the no-key
    warning; and they write to no dict of a caller. *)
Theorem user_methods_orderly (backend : Backend) (verbose : bool) :
  orderly (eq no_key_warning) nothing (UserInfo._check_user_api_key verbose) /\
  orderly (eq no_key_warning) nothing (UserInfo.get_user_info backend) /\
  orderly (eq no_key_warning) nothing (UserInfo.get_all_groups backend) /\
  orderly (eq no_key_warning) nothing (UserInfo.get_user_groups backend).
Proof.
  repeat match goal with |- _ /\ _ => split end.
  - apply orderly_check_user_api_key.
  - apply orderly_get_user_info.
  - apply orderly_get_all_groups.
  - apply orderly_get_user_groups.
Qed.

(** X18: a key given with [add_api_key] to an object built without one
    is stored but not sent: the object then passes its own key check,
    and the request for the user information goes out with the headers
    of construction, whose X-APIKEY entry holds no key. *)
Theorem key_added_later_is_not_sent (backend : Backend)
    (key : option string) (k : string) (w w' : World) (u : UserInfo.t) :
  api_key_or key (getenv_SENSORS_API_KEY w) = None ->
  UserInfo.__init__ backend key w = (Ok u, w') ->
  let st1 := snd (add_api_key k (mkState u w')) in
  let out := UserInfo.get_user_info backend st1 in
  api_key (UserInfo.super (self st1)) = Some k /\
  fst (UserInfo._check_user_api_key true st1) = Ok true /\
  exists r,
    sent (world (snd out)) = sent w' ++ [r] /\
    method r = GET /\ url_path r = user_info_path /\
    req_headers r = headers_of None.
Proof.
  intros Hk Hinit.
  rewrite (user_info_init_without_key backend key w Hk) in Hinit.
  injection Hinit as <- <-. cbv zeta.
  split; [reflexivity|]. split; [reflexivity|].
  unfold UserInfo.get_user_info, UserInfo._check_user_api_key, add_api_key.
  run_monad. cbn.
  eexists. split; [|split; [|split]].
  - destruct (_ =? 200)%Z; reflexivity.
  - reflexivity.
  - reflexivity.
  - cbn. unfold headers_of.
    change (api_key_or key (getenv_SENSORS_API_KEY w)) with
      (api_key (Core.__init__ (getenv_SENSORS_API_KEY w) key)).
    cbn. now rewrite Hk.
Qed.

Lemma key_added_later_is_not_sent_witness :
  exists r,
    sent (world (snd (UserInfo.get_user_info groups_backend
                        (snd (add_api_key "k" keyless_user)))))
      = [] ++ [r] /\
    method r = GET /\ url_path r = user_info_path /\
    req_headers r = headers_of None.
Proof.
  exact (proj2 (proj2 (key_added_later_is_not_sent groups_backend None "k"
                         (world_with []) (world keyless_user)
                         (self keyless_user) eq_refl eq_refl))).
Defined.
